(** * Miniflux to Instapaper webhook service: a shallow embedding of [app.py]

    The development follows the layout of the program:
    - Python values as they come out of the JSON payload, with truthiness,
      [dict.get], [len] and iteration;
    - [hashlib.sha256], [hmac.new(...).hexdigest()] and [hmac.compare_digest];
    - a state-and-exception monad whose state is the trace of log records
      and outbound HTTP calls;
    - [InstapaperClient.add_article], [verify_webhook_signature],
      [process_new_entries], [process_saved_entry] and [webhook_handler];
    - the properties of these functions. *)

From Stdlib Require Import ZArith List Strings.String Strings.Ascii Strings.Byte Bool Lia.
From Stdlib Require Floats.PrimFloat.
Import ListNotations.

Local Open Scope string_scope.
Local Open Scope list_scope.
Local Open Scope Z_scope.

(** ** Strings and bytes

    A Python [str] is modelled by [string]: one [ascii] per character, so the
    characters covered are the code points below 256 (header values, which
    the server decodes as Latin-1, are exactly of that kind). A Python
    [bytes] is a [list byte]. *)

Definition bytes := list byte.

Definition code (c : ascii) : Z := Z.of_N (N_of_ascii c).

Definition byte_val (b : byte) : Z := Z.of_N (Byte.to_N b).

Definition byte_of_Z (z : Z) : byte :=
  match Byte.of_N (Z.to_N (z mod 256)) with
  | Some b => b
  | None => x00
  end.

Definition chars (s : string) : list ascii := list_ascii_of_string s.

(** [str.encode('utf-8')] on code points below 256: one byte below 128, the
    two-byte form [110xxxxx 10xxxxxx] from 128 on. *)
Definition encode_char (c : ascii) : bytes :=
  let n := code c in
  if n <? 128 then [byte_of_Z n]
  else [byte_of_Z (Z.lor 192 (Z.shiftr n 6)); byte_of_Z (Z.lor 128 (Z.land n 63))].

Definition encode_utf8 (s : string) : bytes := flat_map encode_char (chars s).

(** [str.isascii()]. *)
Definition is_ascii (s : string) : bool := forallb (fun c => code c <? 128) (chars s).

(** ASCII case folding, as used for header names. *)
Definition lower_char (c : ascii) : ascii :=
  let n := code c in
  if (65 <=? n) && (n <=? 90) then ascii_of_N (Z.to_N (n + 32)) else c.

Fixpoint lower (s : string) : string :=
  match s with
  | EmptyString => EmptyString
  | String c r => String (lower_char c) (lower r)
  end.

(** [s[:n]]. *)
Fixpoint take (n : nat) (s : string) : string :=
  match n, s with
  | O, _ => EmptyString
  | S _, EmptyString => EmptyString
  | S k, String c r => String c (take k r)
  end.

Definition len (s : string) : Z := Z.of_nat (String.length s).

(** ** SHA-256 ([hashlib.sha256]) *)

Module Sha256.

Definition w32 (x : Z) : Z := x mod 2 ^ 32.

Definition add32 (x y : Z) : Z := w32 (x + y).

Definition rotr (n x : Z) : Z :=
  Z.lor (Z.shiftr x n) (w32 (Z.shiftl x (32 - n))).

Definition Ch (x y z : Z) : Z :=
  Z.lxor (Z.land x y) (Z.land (Z.lxor x 0xffffffff) z).

Definition Maj (x y z : Z) : Z :=
  Z.lxor (Z.lxor (Z.land x y) (Z.land x z)) (Z.land y z).

Definition Sigma0 (x : Z) : Z := Z.lxor (Z.lxor (rotr 2 x) (rotr 13 x)) (rotr 22 x).
Definition Sigma1 (x : Z) : Z := Z.lxor (Z.lxor (rotr 6 x) (rotr 11 x)) (rotr 25 x).
Definition sigma0 (x : Z) : Z := Z.lxor (Z.lxor (rotr 7 x) (rotr 18 x)) (Z.shiftr x 3).
Definition sigma1 (x : Z) : Z := Z.lxor (Z.lxor (rotr 17 x) (rotr 19 x)) (Z.shiftr x 10).

(** The constants are defined as the standard defines them: the first 32
    bits of the fractional parts of the cube roots (for [K]) and of the
    square roots (for [H0]) of the first primes. *)
Definition is_prime (p : Z) : bool :=
  (1 <? p) && forallb (fun d => negb (p mod d =? 0)) (map Z.of_nat (seq 2 (Z.to_nat p - 2))).

Definition primes_below (n : nat) : list Z :=
  filter is_prime (map Z.of_nat (seq 0 n)).

(** The largest [r] below [2 ^ bits] with [r ^ 3 <= n], one bit at a time. *)
Fixpoint cube_root_bits (bits : nat) (n r : Z) : Z :=
  match bits with
  | O => r
  | S b =>
      let r' := r + 2 ^ Z.of_nat b in
      cube_root_bits b n (if r' * r' * r' <=? n then r' else r)
  end.

Definition frac32_cube_root (p : Z) : Z := w32 (cube_root_bits 36 (p * 2 ^ 96) 0).

Definition frac32_square_root (p : Z) : Z := w32 (Z.sqrt (p * 2 ^ 64)).

Definition K : list Z :=
  Eval vm_compute in map frac32_cube_root (primes_below 312).

Definition H0 : list Z :=
  Eval vm_compute in map frac32_square_root (primes_below 20).

(** Big-endian bytes of [x], [n] of them. *)
Fixpoint be_bytes (n : nat) (x : Z) : list Z :=
  match n with
  | O => []
  | S k => Z.land (Z.shiftr x (8 * Z.of_nat k)) 255 :: be_bytes k x
  end.

Definition be_word (bs : list Z) : Z :=
  fold_left (fun acc b => Z.lor (Z.shiftl acc 8) b) bs 0.

(** The message followed by the bit 1, zero bits up to 56 modulo 64 bytes,
    and the length in bits on 8 bytes. *)
Definition pad (msg : list Z) : list Z :=
  let l := Z.of_nat (List.length msg) in
  let zeros := Z.to_nat ((55 - l) mod 64) in
  msg ++ 128 :: repeat 0 zeros ++ be_bytes 8 (8 * l).

Fixpoint chunks (fuel : nat) (n : nat) (l : list Z) : list (list Z) :=
  match fuel, l with
  | O, _ => []
  | _, [] => []
  | S f, _ => firstn n l :: chunks f n (skipn n l)
  end.

Definition words_of_block (block : list Z) : list Z :=
  map be_word (chunks 16 4 block).

(** The message schedule, most recent word first. *)
Fixpoint schedule (n : nat) (rev_w : list Z) : list Z :=
  match n with
  | O => rev_w
  | S k =>
      let w := add32 (add32 (sigma1 (nth 1 rev_w 0)) (nth 6 rev_w 0))
                     (add32 (sigma0 (nth 14 rev_w 0)) (nth 15 rev_w 0)) in
      schedule k (w :: rev_w)
  end.

Record regs := Regs { ra : Z; rb : Z; rc : Z; rd : Z; re : Z; rf : Z; rg : Z; rh : Z }.

Definition round (s : regs) (kw : Z * Z) : regs :=
  let '(k, w) := kw in
  let t1 := add32 (add32 (add32 (rh s) (Sigma1 (re s))) (Ch (re s) (rf s) (rg s)))
                  (add32 k w) in
  let t2 := add32 (Sigma0 (ra s)) (Maj (ra s) (rb s) (rc s)) in
  Regs (add32 t1 t2) (ra s) (rb s) (rc s) (add32 (rd s) t1) (re s) (rf s) (rg s).

Definition regs_of (h : list Z) : regs :=
  Regs (nth 0 h 0) (nth 1 h 0) (nth 2 h 0) (nth 3 h 0)
       (nth 4 h 0) (nth 5 h 0) (nth 6 h 0) (nth 7 h 0).

Definition list_of (s : regs) : list Z :=
  [ra s; rb s; rc s; rd s; re s; rf s; rg s; rh s].

Definition compress (h : list Z) (block : list Z) : list Z :=
  let w := rev (schedule 48 (rev (words_of_block block))) in
  let s := fold_left round (combine K w) (regs_of h) in
  map (fun p => add32 (fst p) (snd p)) (combine h (list_of s)).

Definition digest_words (msg : list Z) : list Z :=
  let p := pad msg in
  fold_left compress (chunks (List.length p) 64 p) H0.

Definition digest (msg : bytes) : bytes :=
  map byte_of_Z (flat_map (be_bytes 4) (digest_words (map byte_val msg))).

Definition block_size : nat := 64.

End Sha256.

(** ** HMAC ([hmac.new(key, msg, hashlib.sha256)]) *)

Definition xor_pad (c : Z) (key : bytes) : bytes :=
  map (fun b => byte_of_Z (Z.lxor (byte_val b) c)) key.

Definition hmac_key_block (key : bytes) : bytes :=
  let k := if (Sha256.block_size <? List.length key)%nat then Sha256.digest key else key in
  k ++ repeat x00 (Sha256.block_size - List.length k).

Definition hmac_sha256 (key msg : bytes) : bytes :=
  let k := hmac_key_block key in
  Sha256.digest (xor_pad 0x5c k ++ Sha256.digest (xor_pad 0x36 k ++ msg)).

(** [.hexdigest()]: two lower-case hexadecimal digits per byte. *)
Definition hex_digit (n : Z) : ascii :=
  if n <? 10 then ascii_of_N (Z.to_N (48 + n)) else ascii_of_N (Z.to_N (87 + n)).

Fixpoint hex (bs : bytes) : string :=
  match bs with
  | [] => EmptyString
  | b :: r =>
      String (hex_digit (Z.shiftr (byte_val b) 4))
             (String (hex_digit (Z.land (byte_val b) 15)) (hex r))
  end.

Definition hmac_hexdigest (key msg : bytes) : string := hex (hmac_sha256 key msg).

Definition bytes_of_string (s : string) : bytes := list_byte_of_string s.

(** ** Python values

    The values that [json] produces: [None], booleans, integers, floats,
    strings, lists and dicts. A dict is an association list in insertion
    order, each key once. *)

#[local] Set Warnings "-register-all".

Inductive value : Type :=
| VNone
| VBool (b : bool)
| VInt (z : Z)
| VFloat (f : PrimFloat.float)
| VStr (s : string)
| VList (l : list value)
| VDict (d : list (string * value)).

(** [bool(v)], the test behind [if v:] and [if not v:]. *)
Definition truthy (v : value) : bool :=
  match v with
  | VNone => false
  | VBool b => b
  | VInt z => negb (z =? 0)
  | VFloat f => negb (PrimFloat.is_zero f)
  | VStr EmptyString => false
  | VStr (String _ _) => true
  | VList [] => false
  | VList (_ :: _) => true
  | VDict [] => false
  | VDict (_ :: _) => true
  end.

Fixpoint dict_get (d : list (string * value)) (k : string) : option value :=
  match d with
  | [] => None
  | (k', v) :: r => if (k' =? k)%string then Some v else dict_get r k
  end.

(** [os.getenv] gives [None] or a string. *)
Definition of_env (o : option string) : value :=
  match o with
  | None => VNone
  | Some s => VStr s
  end.

(** [a or b]. *)
Definition py_or (a b : value) : value := if truthy a then a else b.

(** ** Exceptions, events and the monad of effects *)

Inductive exn : Type :=
| AttributeError
| TypeError
| RequestException (what : string)
| OtherException (what : string).

Definition exn_str (e : exn) : value :=
  match e with
  | AttributeError => VStr "AttributeError"
  | TypeError => VStr "TypeError"
  | RequestException w => VStr w
  | OtherException w => VStr w
  end.

Inductive result (A : Type) : Type :=
| Ok (a : A)
| Raise (e : exn).

Arguments Ok {A} a.
Arguments Raise {A} e.

Record response : Type := Response {
  status_code : Z;
  headers : list (string * string);
  text : string
}.

Inductive level : Type := INFO | WARNING | ERROR.

(** What the process does to the outside: a log record (the text of the
    f-string with the values of its fields) or one [requests.post], kept with
    what came back. *)
Inductive event : Type :=
| Log (lv : level) (msg : string) (args : list value)
| Post (url : string) (data : list (string * value)) (timeout : Z) (r : result response).

Definition trace := list event.

Definition M (A : Type) : Type := trace -> result A * trace.

Definition ret {A} (a : A) : M A := fun t => (Ok a, t).

Definition bind {A B} (m : M A) (k : A -> M B) : M B :=
  fun t =>
    match m t with
    | (Ok a, t') => k a t'
    | (Raise e, t') => (Raise e, t')
    end.

Definition raise {A} (e : exn) : M A := fun t => (Raise e, t).

(** [try: m except Exception as e: h e]. *)
Definition try_except {A} (m : M A) (h : exn -> M A) : M A :=
  fun t =>
    match m t with
    | (Ok a, t') => (Ok a, t')
    | (Raise e, t') => h e t'
    end.

Definition emit (e : event) : M unit := fun t => (Ok tt, t ++ [e]).

Definition log (lv : level) (msg : string) (args : list value) : M unit :=
  emit (Log lv msg args).

Definition lift {A} (r : result A) : M A := fun t => (r, t).

Declare Scope py_scope.
Delimit Scope py_scope with py.
Notation "x <- m ; k" := (bind m (fun x => k))
  (at level 61, m at next level, right associativity) : py_scope.
Notation "m ;; k" := (bind m (fun _ => k))
  (at level 61, right associativity) : py_scope.
Local Open Scope py_scope.

Definition get_or (d : list (string * value)) (k : string) (dflt : value) : value :=
  match dict_get d k with
  | Some x => x
  | None => dflt
  end.

(** [v.get(k, dflt)]: only a dict has [get]. *)
Definition py_get (v : value) (k : string) (dflt : value) : M value :=
  match v with
  | VDict d => ret (get_or d k dflt)
  | _ => raise AttributeError
  end.

(** [len(v)]. *)
Definition py_len (v : value) : M Z :=
  match v with
  | VStr s => ret (len s)
  | VList l => ret (Z.of_nat (List.length l))
  | VDict d => ret (Z.of_nat (List.length d))
  | _ => raise TypeError
  end.

(** The items of [for x in v]: the elements of a list, the characters of a
    string, the keys of a dict. *)
Definition py_iter (v : value) : M (list value) :=
  match v with
  | VStr s => ret (map (fun c => VStr (String c EmptyString)) (chars s))
  | VList l => ret l
  | VDict d => ret (map (fun kv => VStr (fst kv)) d)
  | _ => raise TypeError
  end.

(** ** [re.sub(r'<[^>]+>', '', content)]

    A match starts at a ['<'] whose next character is not ['>'] and which has
    a ['>'] further on; it ends at the first such ['>']. Matches are taken
    leftmost first and do not overlap. *)

Definition is_lt (c : ascii) : bool := (c =? "<")%char.
Definition is_gt (c : ascii) : bool := (c =? ">")%char.

Fixpoint has_gt (s : string) : bool :=
  match s with
  | EmptyString => false
  | String c r => is_gt c || has_gt r
  end.

Fixpoint has_lt (s : string) : bool :=
  match s with
  | EmptyString => false
  | String c r => is_lt c || has_lt r
  end.

(** [opens_tag r]: the text [r] after a ['<'] continues a match. *)
Definition opens_tag (r : string) : bool :=
  match r with
  | EmptyString => false
  | String c r' => negb (is_gt c) && has_gt r'
  end.

Fixpoint strip_tags (s : string) : string :=
  match s with
  | EmptyString => EmptyString
  | String c r =>
      if is_lt c && opens_tag r then after_gt r else String c (strip_tags r)
  end
with after_gt (s : string) : string :=
  match s with
  | EmptyString => EmptyString
  | String c r => if is_gt c then strip_tags r else after_gt r
  end.

Definition re_sub_tags (content : value) : result string :=
  match content with
  | VStr s => Ok (strip_tags s)
  | _ => Raise TypeError
  end.

(** ** Headers

    Header names compare without case, in the request ([request.headers])
    and in the reply ([response.headers]). *)

Fixpoint header_lookup (h : list (string * string)) (name : string) : option string :=
  match h with
  | [] => None
  | (k, v) :: r => if (lower k =? lower name)%string then Some v else header_lookup r name
  end.

(** [h.get(name, dflt)]. *)
Definition header_get (h : list (string * string)) (name dflt : string) : string :=
  match header_lookup h name with
  | Some v => v
  | None => dflt
  end.

(** [name in h]. *)
Definition header_in (name : string) (h : list (string * string)) : bool :=
  match header_lookup h name with
  | Some _ => true
  | None => false
  end.

(** ** [hmac.compare_digest] on two [str]: both must be ASCII. *)
Definition compare_digest (a b : string) : M bool :=
  if is_ascii a && is_ascii b then ret (a =? b)%string else raise TypeError.

(** ** The inbound request, as the handler reads it: the headers, the raw
    body ([request.get_data()]), what [request.get_json()] does (it returns a
    value, [None] included, or raises) and the peer address. *)
Record request : Type := Request {
  req_headers : list (string * string);
  get_data : bytes;
  get_json : result value;
  remote_addr : value
}.

Definition INSTAPAPER_ADD_URL : string := "https://www.instapaper.com/api/add".

Record InstapaperClient : Type := Client {
  username : string;
  password : string
}.

(** [jsonify(d)] and the pair (body, status) that a view returns; a bare
    [jsonify(d)] is a 200. *)
Definition jsonify (d : list (string * value)) : value := VDict d.

Definition http_response : Type := (value * Z)%type.

(** The form fields of [add_article]. *)
Definition form_data (self : InstapaperClient) (url title selection : value)
  : list (string * value) :=
  [("username", VStr (username self)); ("password", VStr (password self)); ("url", url)]
  ++ (if truthy title then [("title", title)] else [])
  ++ (if truthy selection then [("selection", selection)] else []).

(** The note that [process_saved_entry] puts before the description:
    [if description: f"[Saved from Miniflux] {description}"], otherwise the
    tag alone. *)
Definition SAVED_TAG : string := "[Saved from Miniflux]".

Definition with_saved_tag (description : value) : value :=
  match description with
  | VStr (String _ _ as d) => VStr (SAVED_TAG ++ " " ++ d)
  | _ => VStr SAVED_TAG
  end.

(** The description made from the content; [process_new_entries] and
    [process_saved_entry] have the same lines for it. They touch nothing
    outside, so the result is a plain [result]. *)
Definition description_of (content : value) : result value :=
  if truthy content then
    match re_sub_tags content with
    | Ok text_content =>
        if len text_content >? 200
        then Ok (VStr (take 200 text_content ++ "..."))
        else Ok (VStr text_content)
    | Raise e => Raise e
    end
  else Ok VNone.

(** ** [generate_signature] of [test_webhook.py]: the signature the sender
    puts in the header. *)
Definition generate_signature (payload : bytes) (secret : string) : string :=
  match secret with
  | EmptyString => EmptyString
  | _ => hmac_hexdigest (encode_utf8 secret) payload
  end.

(** ** Reading a trace *)

Definition is_post (e : event) : bool :=
  match e with
  | Post _ _ _ _ => true
  | Log _ _ _ => false
  end.

(** The outbound calls of a trace, in the order they were made. *)
Definition posts (t : trace) : trace := filter is_post t.

(** Endpoint, form fields and timeout of each call. *)
Definition call : Type := (string * list (string * value) * Z)%type.

Definition calls (t : trace) : list call :=
  flat_map (fun e => match e with
                     | Post url data timeout _ => [(url, data, timeout)]
                     | Log _ _ _ => []
                     end) t.

(** ** The outcomes of the specification

    The program returns a boolean and writes one log line per branch; the
    specification names the branches. [outcome_of] is the table of the
    specification, [outcome_of_log] reads the branch off the log line. *)

Inductive SaveOutcome : Type :=
| Saved
| AuthFailed
| BadRequest
| ServiceUnavailable
| UnexpectedStatus
| TransportError.

Definition outcome_of_status (status : Z) : SaveOutcome :=
  match status with
  | 201 => Saved
  | 403 => AuthFailed
  | 400 => BadRequest
  | 500 => ServiceUnavailable
  | _ => UnexpectedStatus
  end.

Definition outcome_of (r : result response) : SaveOutcome :=
  match r with
  | Ok resp => outcome_of_status (status_code resp)
  | Raise _ => TransportError
  end.

Definition is_saved (o : SaveOutcome) : bool :=
  match o with
  | Saved => true
  | _ => false
  end.

Definition is_request_exception (e : exn) : bool :=
  match e with
  | RequestException _ => true
  | _ => false
  end.

Definition outcome_of_log (e : event) : option SaveOutcome :=
  match e with
  | Log INFO msg _ =>
      if (msg =? "Successfully added to Instapaper: {title or url}")%string
      then Some Saved else None
  | Log ERROR msg _ =>
      if (msg =? "Invalid Instapaper credentials")%string then Some AuthFailed
      else if (msg =? "Bad request to Instapaper API: {response.text}")%string
      then Some BadRequest
      else if (msg =? "Instapaper service error")%string then Some ServiceUnavailable
      else if (msg =? "Unexpected response from Instapaper: {response.status_code}")%string
      then Some UnexpectedStatus
      else if (msg =? "Error connecting to Instapaper: {e}")%string
      then Some TransportError
      else None
  | _ => None
  end.

(** The outcome that the records after a call report: that of the first. *)
Definition reported (report : trace) : option SaveOutcome :=
  match report with
  | e :: _ => outcome_of_log e
  | [] => None
  end.

(** The calls whose reply is the 201 of a saved article. *)
Definition saved_count (t : trace) : Z :=
  Z.of_nat (List.length
    (filter (fun e => match e with
                      | Post _ _ _ r => is_saved (outcome_of r)
                      | Log _ _ _ => false
                      end) t)).

(** ** What [re.sub] removes, said as a relation

    [tag_match m]: the pattern [<[^>]+>] matches the whole of [m].
    [removes s out]: [out] is [s] without its matches, the leftmost taken
    first and none overlapping another. *)

Inductive tag_match : string -> Prop :=
| tag_match_intro (c : ascii) (inner : string) :
    has_gt (String c inner) = false ->
    tag_match ("<" ++ String c inner ++ ">").

Inductive removes : string -> string -> Prop :=
| removes_end : removes "" ""
| removes_match (m rest out : string) :
    tag_match m -> removes rest out -> removes (m ++ rest) out
| removes_keep (c : ascii) (rest out : string) :
    (forall m rest', tag_match m -> String c rest <> (m ++ rest')%string) ->
    removes rest out -> removes (String c rest) (String c out).

(** ** The call that an entry of a batch leads to

    None for an entry that is skipped (no URL) or whose content cannot be
    stripped; otherwise the one call, with the description as selection. *)
Definition is_dict (v : value) : bool :=
  match v with
  | VDict _ => true
  | _ => false
  end.

Definition entry_calls_with (note : value -> value) (self : InstapaperClient)
    (entry : value) : list call :=
  match entry with
  | VDict d =>
      let url := get_or d "url" VNone in
      if truthy url then
        match description_of (get_or d "content" (VStr "")) with
        | Ok description =>
            [(INSTAPAPER_ADD_URL,
              form_data self url (get_or d "title" (VStr "")) (note description), 30)]
        | Raise _ => []
        end
      else []
  | _ => []
  end.

(** In a batch the description goes as it is; for a saved entry it goes
    through [with_saved_tag]. *)
Definition entry_calls : InstapaperClient -> value -> list call :=
  entry_calls_with (fun description => description).

Definition saved_entry_calls : InstapaperClient -> value -> list call :=
  entry_calls_with with_saved_tag.

(** A field of a JSON object. *)
Definition has_field (body : value) (k : string) : bool :=
  match body with
  | VDict d =>
      match dict_get d k with
      | Some _ => true
      | None => false
      end
  | _ => false
  end.

(** The two shapes of what [/webhook] returns: a 200 whose body has
    [status] and [event_type], or a 400, 403 or 500 whose body is one
    [error] field. *)
Definition webhook_body_ok (resp : value * Z) : Prop :=
  let (body, code) := resp in
  (code = 200 /\ has_field body "status" = true /\ has_field body "event_type" = true)
  \/ ((code = 400 \/ code = 403 \/ code = 500)
      /\ exists msg, body = VDict [("error", VStr msg)]).

(** [s.startswith(p)]. *)
Fixpoint starts_with (p s : string) : bool :=
  match p, s with
  | EmptyString, _ => true
  | String a p', String b s' => (a =? b)%char && starts_with p' s'
  | String _ _, EmptyString => false
  end.

(** ** Stand-ins for the bookmarking service, and sample payloads *)

Definition upstream_status (status : Z)
  : trace -> string -> list (string * value) -> Z -> result response :=
  fun _ _ _ _ => Ok (Response status [] "").

Definition upstream_down
  : trace -> string -> list (string * value) -> Z -> result response :=
  fun _ _ _ _ => Raise (RequestException "Connection refused").

Definition fields_A : list (string * value) :=
  [("id", VInt 1); ("url", VStr "https://x.test"); ("title", VStr "T");
   ("content", VStr "<p>hi</p>")].

Definition fields_no_url : list (string * value) :=
  [("id", VInt 1); ("title", VStr "T"); ("content", VStr "<p>hi</p>")].

Definition fields_D : list (string * value) :=
  [("id", VInt 9); ("url", VStr "https://y.test"); ("title", VStr "S")].

Definition entry_A : value := VDict fields_A.
Definition entry_no_url : value := VDict fields_no_url.
Definition entry_D : value := VDict fields_D.

Definition batch_body (entries : list value) : value :=
  VDict [("entries", VList entries); ("feed", VDict [("title", VStr "F")])].

Definition saved_body (entry : value) : value := VDict [("entry", entry)].

Definition signed_request (event_type signature : string) (payload : bytes)
    (body : result value) : request :=
  Request [("X-Miniflux-Signature", signature); ("X-Miniflux-Event-Type", event_type)]
    payload body (VStr "127.0.0.1").

Definition json_request (event_type : string) (body : result value) : request :=
  Request [("X-Miniflux-Event-Type", event_type)] [] body (VStr "127.0.0.1").

(** ** The sender of [test_webhook.py]

    [test_webhook] reads the secret with [os.getenv(..., '')], sends the
    payload bytes with three fixed headers and adds the signature header
    only when it has a secret. *)
Definition sender_secret (env : option string) : string :=
  match env with
  | Some s => s
  | None => EmptyString
  end.

Definition test_headers (event_type webhook_secret : string) (payload_bytes : bytes)
  : list (string * string) :=
  [("Content-Type", "application/json"); ("User-Agent", "Miniflux/2.0.42");
   ("X-Miniflux-Event-Type", event_type)]
  ++ match webhook_secret with
     | EmptyString => []
     | _ => [("X-Miniflux-Signature", generate_signature payload_bytes webhook_secret)]
     end.

(** The request as the server sees it; what the body parses to and the
    address of the sender are not the script's to choose. *)
Definition test_request (event_type webhook_secret : string) (payload_bytes : bytes)
    (parsed : result value) (addr : value) : request :=
  Request (test_headers event_type webhook_secret payload_bytes) payload_bytes parsed addr.

(** ** What a run adds to the trace

    [run_adds P m]: from any trace, [m] only appends, and what it appends
    satisfies [P]. A [frame] is a property of appended events that holds of
    nothing, of a log record, and of two appended pieces when it holds of
    each. *)
Definition run_adds {A : Type} (P : trace -> Prop) (m : M A) : Prop :=
  forall t, exists r new, m t = (r, t ++ new) /\ P new.

Record frame (P : trace -> Prop) : Prop := Frame {
  frame_nil : P [];
  frame_log : forall lv msg args, P [Log lv msg args];
  frame_app : forall a b, P a -> P b -> P (a ++ b)
}.

(** A call as the service is meant to make it: to the add endpoint, with
    the 30 seconds of timeout, the credentials of the client and a URL that
    is not empty. *)
Definition good_call (self : InstapaperClient) (c : call) : Prop :=
  let '(endpoint, data, timeout) := c in
  endpoint = INSTAPAPER_ADD_URL
  /\ timeout = 30
  /\ dict_get data "username" = Some (VStr (username self))
  /\ dict_get data "password" = Some (VStr (password self))
  /\ exists url, dict_get data "url" = Some url /\ truthy url = true.

(** The entries before the first one that is not an object. *)
Fixpoint objects_before (entries : list value) : list value :=
  match entries with
  | [] => []
  | entry :: rest => if is_dict entry then entry :: objects_before rest else []
  end.

(** [create_test_payload]: [now k] is what the [k]-th
    [datetime.now().isoformat()] of the call gives. An event type that is
    neither of the two falls through both branches and gives [None]. *)
Definition create_test_payload (now : nat -> string) (event_type : string) : value :=
  if (event_type =? "new_entries")%string then
    VDict
      [("event_type", VStr "new_entries");
       ("feed", VDict [("id", VInt 1); ("title", VStr "Test Feed");
                       ("site_url", VStr "https://example.com");
                       ("feed_url", VStr "https://example.com/feed.xml");
                       ("checked_at", VStr (now 0%nat ++ "Z"))]);
       ("entries", VList
          [VDict
             [("id", VInt 123);
              ("title", VStr "Top Stories: iOS 26 Public Beta Testing - MacRumors Test");
              ("url", VStr "https://www.macrumors.com/2025/07/26/top-stories-ios-26-public-beta/");
              ("content", VStr "This is a test article created by the webhook test script using a real MacRumors URL. It should appear in your Instapaper account if everything is working correctly.");
              ("summary", VStr "Real MacRumors URL test article");
              ("author", VStr "MacRumors Test");
              ("published_at", VStr (now 1%nat ++ "Z"));
              ("created_at", VStr (now 2%nat ++ "Z"));
              ("changed_at", VStr (now 3%nat ++ "Z"));
              ("status", VStr "unread");
              ("reading_time", VInt 1);
              ("enclosures", VList []);
              ("feed", VDict [("id", VInt 1); ("title", VStr "Test Feed")])]])]
  else if (event_type =? "save_entry")%string then
    VDict
      [("event_type", VStr "save_entry");
       ("entry", VDict
          [("id", VInt 456);
           ("title", VStr "Saved Test Article from Webhook Test");
           ("url", VStr "https://example.com/saved-test-article");
           ("content", VStr "This is a saved test article created by the webhook test script. It should appear in your Instapaper account if everything is working correctly.");
           ("summary", VStr "Saved test article summary");
           ("author", VStr "Test Author");
           ("published_at", VStr (now 0%nat ++ "Z"));
           ("created_at", VStr (now 1%nat ++ "Z"));
           ("changed_at", VStr (now 2%nat ++ "Z"));
           ("status", VStr "unread");
           ("reading_time", VInt 2);
           ("enclosures", VList []);
           ("feed", VDict [("id", VInt 1); ("title", VStr "Test Feed")])])]
  else VNone.

(** What [test_webhook] makes of the answer: success is a status of 200. *)
Definition test_verdict (answer : result (value * Z)) : bool :=
  match answer with
  | Ok (_, code) => code =? 200
  | Raise _ => false
  end.

Section Service.

(** The bookmarking service and the network: what a [requests.post] gives
    back, after everything that has happened so far. *)
Variable upstream : trace -> string -> list (string * value) -> Z -> result response.

(** The configuration read from the environment when the module loads. *)
Variable MINIFLUX_WEBHOOK_SECRET : option string.
Variable INSTAPAPER_USERNAME : option string.
Variable INSTAPAPER_PASSWORD : string.

Definition requests_post (url : string) (data : list (string * value)) (timeout : Z)
  : M response :=
  fun t =>
    let r := upstream t url data timeout in
    (r, t ++ [Post url data timeout r]).

Definition add_article (self : InstapaperClient) (url title selection : value) : M bool :=
  try_except
    (let data := form_data self url title selection in
     log INFO "Adding article to Instapaper: {title or url}" [py_or title url] ;;
     response <- requests_post INSTAPAPER_ADD_URL data 30 ;
     if status_code response =? 201 then
       log INFO "Successfully added to Instapaper: {title or url}" [py_or title url] ;;
       (if header_in "Content-Location" (headers response)
        then log INFO "Saved URL: {response.headers['Content-Location']}"
               [VStr (header_get (headers response) "Content-Location" "")]
        else ret tt) ;;
       (if header_in "X-Instapaper-Title" (headers response)
        then log INFO "Detected title: {response.headers['X-Instapaper-Title']}"
               [VStr (header_get (headers response) "X-Instapaper-Title" "")]
        else ret tt) ;;
       ret true
     else if status_code response =? 403 then
       log ERROR "Invalid Instapaper credentials" [] ;;
       ret false
     else if status_code response =? 400 then
       log ERROR "Bad request to Instapaper API: {response.text}" [VStr (text response)] ;;
       ret false
     else if status_code response =? 500 then
       log ERROR "Instapaper service error" [] ;;
       ret false
     else
       log ERROR "Unexpected response from Instapaper: {response.status_code}"
         [VInt (status_code response)] ;;
       ret false)
    (fun e =>
       match e with
       | RequestException _ =>
           log ERROR "Error connecting to Instapaper: {e}" [exn_str e] ;;
           ret false
       | _ =>
           log ERROR "Unexpected error adding to Instapaper: {e}" [exn_str e] ;;
           ret false
       end).

Definition verify_webhook_signature (payload : bytes) (signature : string)
    (secret : option string) : M bool :=
  match secret with
  | None | Some EmptyString =>
      log WARNING "No webhook secret configured - skipping signature verification" [] ;;
      ret true
  | Some key =>
      let expected_signature := hmac_hexdigest (encode_utf8 key) payload in
      compare_digest expected_signature signature
  end.

(** The body of the [try] of one turn of the loop; it gives the new value of
    [processed_count]. The statements that follow the increment do not raise
    (the entry is a dict once [entry.get('url')] has returned). *)
Definition new_entry_try (instapaper : InstapaperClient) (entry : value)
    (processed_count : Z) : M Z :=
  url <- py_get entry "url" VNone ;
  title <- py_get entry "title" (VStr "") ;
  content <- py_get entry "content" (VStr "") ;
  if negb (truthy url) then
    id <- py_get entry "id" VNone ;
    log WARNING "Entry missing URL: {entry.get('id')}" [id] ;;
    ret processed_count
  else
    description <- lift (description_of content) ;
    success <- add_article instapaper url title description ;
    if success then
      id <- py_get entry "id" VNone ;
      log INFO "Added entry {entry.get('id')} to Instapaper: {title}" [id; title] ;;
      ret (processed_count + 1)
    else
      id <- py_get entry "id" VNone ;
      log ERROR "Failed to add entry {entry.get('id')} to Instapaper" [id] ;;
      ret processed_count.

Definition new_entry_step (instapaper : InstapaperClient) (entry : value)
    (processed_count : Z) : M Z :=
  try_except
    (new_entry_try instapaper entry processed_count)
    (fun e =>
       id <- py_get entry "id" (VStr "unknown") ;
       log ERROR "Error processing entry {entry.get('id', 'unknown')}: {e}" [id; exn_str e] ;;
       ret processed_count).

Fixpoint for_entries (instapaper : InstapaperClient) (entries : list value)
    (processed_count : Z) : M Z :=
  match entries with
  | [] => ret processed_count
  | entry :: rest =>
      c <- new_entry_step instapaper entry processed_count ;
      for_entries instapaper rest c
  end.

Definition process_new_entries (entries : value) : M Z :=
  match INSTAPAPER_USERNAME with
  | None | Some EmptyString =>
      log ERROR "Instapaper username not configured" [] ;;
      ret 0
  | Some user =>
      let instapaper := Client user INSTAPAPER_PASSWORD in
      items <- py_iter entries ;
      for_entries instapaper items 0
  end.

Definition process_saved_entry (entry : value) : M bool :=
  match INSTAPAPER_USERNAME with
  | None | Some EmptyString =>
      log ERROR "Instapaper username not configured" [] ;;
      ret false
  | Some user =>
      let instapaper := Client user INSTAPAPER_PASSWORD in
      try_except
        (url <- py_get entry "url" VNone ;
         title <- py_get entry "title" (VStr "") ;
         content <- py_get entry "content" (VStr "") ;
         if negb (truthy url) then
           id <- py_get entry "id" VNone ;
           log WARNING "Saved entry missing URL: {entry.get('id')}" [id] ;;
           ret false
         else
           description <- lift (description_of content) ;
           let description := with_saved_tag description in
           success <- add_article instapaper url title description ;
           if success then
             id <- py_get entry "id" VNone ;
             log INFO "Added saved entry {entry.get('id')} to Instapaper: {title}" [id; title] ;;
             ret true
           else
             id <- py_get entry "id" VNone ;
             log ERROR "Failed to add saved entry {entry.get('id')} to Instapaper" [id] ;;
             ret false)
        (fun e =>
           id <- py_get entry "id" (VStr "unknown") ;
           log ERROR "Error processing saved entry {entry.get('id', 'unknown')}: {e}"
             [id; exn_str e] ;;
           ret false)
  end.

(** [MINIFLUX_WEBHOOK_SECRET and not verify_webhook_signature(...)]: the
    verifier runs only with a secret. *)
Definition check_signature (payload : bytes) (signature : string) : M bool :=
  if truthy (of_env MINIFLUX_WEBHOOK_SECRET)
  then verify_webhook_signature payload signature MINIFLUX_WEBHOOK_SECRET
  else ret true.

Definition webhook_handler (req : request) : M http_response :=
  try_except
    (let signature := header_get (req_headers req) "X-Miniflux-Signature" "" in
     let event_type := header_get (req_headers req) "X-Miniflux-Event-Type" "" in
     let payload := get_data req in
     valid <- check_signature payload signature ;
     if negb valid then
       log WARNING "Invalid webhook signature from {request.remote_addr}" [remote_addr req] ;;
       ret (jsonify [("error", VStr "Invalid signature")], 403)
     else
       match get_json req with
       | Raise e =>
           log ERROR "Invalid JSON payload: {e}" [exn_str e] ;;
           ret (jsonify [("error", VStr "Invalid JSON")], 400)
       | Ok data =>
           if negb (truthy data) then
             log ERROR "Empty payload received" [] ;;
             ret (jsonify [("error", VStr "Empty payload")], 400)
           else
             log INFO "Received webhook: {event_type} from {request.remote_addr}"
               [VStr event_type; remote_addr req] ;;
             if (event_type =? "new_entries")%string then
               entries <- py_get data "entries" (VList []) ;
               feed <- py_get data "feed" (VDict []) ;
               feed_title <- py_get feed "title" (VStr "Unknown feed") ;
               n <- py_len entries ;
               log INFO "Processing {len(entries)} new entries from feed: {feed_title}"
                 [VInt n; feed_title] ;;
               processed_count <- process_new_entries entries ;
               received <- py_len entries ;
               ret (jsonify [("status", VStr "success");
                             ("event_type", VStr event_type);
                             ("entries_received", VInt received);
                             ("entries_processed", VInt processed_count);
                             ("feed", feed_title)], 200)
             else if (event_type =? "save_entry")%string then
               entry <- py_get data "entry" (VDict []) ;
               shown <- py_get entry "title" (VStr "Unknown title") ;
               log INFO "Processing saved entry: {entry.get('title', 'Unknown title')}" [shown] ;;
               success <- process_saved_entry entry ;
               entry_title <- py_get entry "title" (VStr "Unknown title") ;
               ret (jsonify [("status", VStr (if success then "success" else "error"));
                             ("event_type", VStr event_type);
                             ("entry_processed", VBool success);
                             ("entry_title", entry_title)], 200)
             else
               log WARNING "Unknown event type: {event_type}" [VStr event_type] ;;
               ret (jsonify [("status", VStr "ignored");
                             ("event_type", VStr event_type);
                             ("message", VStr "Event type not supported")], 200)
       end)
    (fun e =>
       log ERROR "Error processing webhook: {e}" [exn_str e] ;;
       ret (jsonify [("error", VStr "Internal server error")], 500)).

(** The client that the two processing functions build, when a user name
    is configured. *)
Definition configured_client : option InstapaperClient :=
  match INSTAPAPER_USERNAME with
  | None | Some EmptyString => None
  | Some user => Some (Client user INSTAPAPER_PASSWORD)
  end.

(** The signature check lets the request through. *)
Definition signature_accepted (req : request) : Prop :=
  forall t,
    check_signature (get_data req)
      (header_get (req_headers req) "X-Miniflux-Signature" "") t = (Ok true, t).

(** A batch is worked through in order and in isolation: the run returns a
    count, its calls are those of the entries one after the other, at most
    one each, and the count is the number of calls that were answered with
    a 201. *)
Definition batch_isolated (entries : list value) (t : trace) : Prop :=
  exists n new,
    process_new_entries (VList entries) t = (Ok n, t ++ new)
    /\ calls new = match configured_client with
                   | Some self => flat_map (entry_calls self) entries
                   | None => []
                   end
    /\ n = saved_count new.

(** Every body that [/webhook] returns has the fields [status] and
    [event_type]. *)
Definition every_body_has_status_and_event_type : Prop :=
  forall req t body code t',
    webhook_handler req t = (Ok (body, code), t') ->
    has_field body "status" = true /\ has_field body "event_type" = true.

(** What the service may add to the trace: with a client, calls that are
    all [good_call]s; without one, no call. *)
Definition service_calls_ok (new : trace) : Prop :=
  match configured_client with
  | Some self => Forall (good_call self) (calls new)
  | None => calls new = []
  end.

(** The block under [if __name__ == '__main__'], up to [app.run]: [Some 1]
    is [exit(1)], [None] the start of the server. *)
Definition main_startup : M (option Z) :=
  if negb (truthy (of_env INSTAPAPER_USERNAME)) then
    log ERROR "INSTAPAPER_USERNAME environment variable is required" [] ;;
    ret (Some 1)
  else
    (if negb (truthy (of_env MINIFLUX_WEBHOOK_SECRET))
     then log WARNING
            "MINIFLUX_WEBHOOK_SECRET not set - webhook signature verification disabled" []
     else ret tt) ;;
    log INFO "Starting Miniflux to Instapaper webhook service" [] ;;
    log INFO "Instapaper username: {INSTAPAPER_USERNAME}" [of_env INSTAPAPER_USERNAME] ;;
    log INFO
      "Webhook signature verification: {'enabled' if MINIFLUX_WEBHOOK_SECRET else 'disabled'}"
      [VStr (if truthy (of_env MINIFLUX_WEBHOOK_SECRET) then "enabled" else "disabled")] ;;
    ret None.

(** * Properties *)

(** ** Strings *)

Lemma string_length_app (a b : string) :
  String.length (a ++ b) = (String.length a + String.length b)%nat.
Proof. induction a as [|c a IH]; simpl; [reflexivity | now rewrite IH]. Qed.

Lemma length_take (n : nat) (s : string) :
  String.length (take n s) = Nat.min n (String.length s).
Proof.
  revert s; induction n as [|n IH]; intros [|c s]; simpl; try reflexivity.
  now rewrite IH.
Qed.

Lemma app_assoc_string (a b c : string) : ((a ++ b) ++ c = a ++ (b ++ c))%string.
Proof. induction a as [|x a IH]; simpl; [reflexivity | now rewrite IH]. Qed.

Lemma is_ascii_String (c : ascii) (s : string) :
  is_ascii (String c s) = (code c <? 128) && is_ascii s.
Proof. reflexivity. Qed.

Lemma hex_digits_ascii (b : byte) :
  (code (hex_digit (Z.shiftr (byte_val b) 4)) <? 128)
  && (code (hex_digit (Z.land (byte_val b) 15)) <? 128) = true.
Proof. destruct b; reflexivity. Qed.

Lemma is_ascii_hex (bs : bytes) : is_ascii (hex bs) = true.
Proof.
  induction bs as [|b bs IH]; [reflexivity|].
  cbn [hex]. rewrite !is_ascii_String, IH, andb_true_r.
  apply hex_digits_ascii.
Qed.

Lemma length_hex (bs : bytes) : String.length (hex bs) = (2 * List.length bs)%nat.
Proof. induction bs as [|b bs IH]; simpl; [reflexivity | rewrite IH; lia]. Qed.

(** ** Tag stripping *)

Lemma is_gt_true (c : ascii) : is_gt c = true <-> c = ">"%char.
Proof. apply Ascii.eqb_eq. Qed.

Lemma is_lt_true (c : ascii) : is_lt c = true <-> c = "<"%char.
Proof. apply Ascii.eqb_eq. Qed.

Lemma has_gt_app (a b : string) : has_gt (a ++ b) = has_gt a || has_gt b.
Proof.
  induction a as [|c a IH]; simpl; [reflexivity|].
  now rewrite IH, orb_assoc.
Qed.

(** A text with a ['>'] splits at the first one. *)
Lemma has_gt_split (s : string) :
  has_gt s = true ->
  exists inner rest, s = (inner ++ String ">" rest)%string /\ has_gt inner = false.
Proof.
  induction s as [|c s IH]; simpl; [discriminate|].
  destruct (is_gt c) eqn:Hc; simpl.
  - intros _. apply is_gt_true in Hc; subst c.
    exists EmptyString, s; split; reflexivity.
  - intros H. destruct (IH H) as (inner & rest & -> & Hin).
    exists (String c inner), rest; split; [reflexivity|].
    simpl. now rewrite Hc.
Qed.

Lemma after_gt_first (inner rest : string) :
  has_gt inner = false ->
  after_gt (inner ++ String ">" rest) = strip_tags rest.
Proof.
  induction inner as [|c inner IH]; simpl; [reflexivity|].
  destruct (is_gt c); simpl; [discriminate | exact IH].
Qed.

(** A match at the head is removed whole. *)
Lemma strip_tags_match (m rest : string) :
  tag_match m -> strip_tags (m ++ rest) = strip_tags rest.
Proof.
  intros [c inner H].
  change (("<" ++ String c inner ++ ">") ++ rest)%string
    with (String "<" (String c ((inner ++ ">") ++ rest))).
  rewrite app_assoc_string.
  simpl in H. apply orb_false_iff in H as [Hc Hin].
  cbn [strip_tags opens_tag]. rewrite Hc.
  replace (has_gt (inner ++ ">" ++ rest)) with true
    by (rewrite has_gt_app; simpl; now rewrite orb_true_r).
  cbn [is_lt Ascii.eqb Bool.eqb negb andb after_gt]. rewrite Hc.
  now apply after_gt_first.
Qed.

Lemma head_match_opens (c : ascii) (r m rest : string) :
  tag_match m -> String c r = (m ++ rest)%string ->
  is_lt c && opens_tag r = true.
Proof.
  intros [c0 inner H] E.
  change (("<" ++ String c0 inner ++ ">") ++ rest)%string
    with (String "<" (String c0 ((inner ++ ">") ++ rest))) in E.
  injection E as -> ->.
  simpl in H. apply orb_false_iff in H as [Hc Hin].
  cbn [opens_tag]. rewrite Hc, app_assoc_string, has_gt_app.
  simpl. now rewrite orb_true_r.
Qed.

(** A character where no match starts is kept. *)
Lemma strip_tags_keep (c : ascii) (r : string) :
  (forall m rest, tag_match m -> String c r <> (m ++ rest)%string) ->
  strip_tags (String c r) = String c (strip_tags r).
Proof.
  intros H. cbn [strip_tags].
  destruct (is_lt c && opens_tag r) eqn:E; [|reflexivity].
  exfalso. apply andb_true_iff in E as [Hc Ho].
  apply is_lt_true in Hc; subst c.
  destruct r as [|c0 r0]; [discriminate|].
  cbn [opens_tag] in Ho. apply andb_true_iff in Ho as [Hc0 Hgt].
  destruct (has_gt_split _ Hgt) as (inner & rest & -> & Hin).
  apply (H ("<" ++ String c0 inner ++ ">")%string rest).
  - constructor. simpl. rewrite Hin. now destruct (is_gt c0).
  - simpl. now rewrite app_assoc_string.
Qed.

Lemma strip_tags_removes_upto (n : nat) (s : string) :
  (String.length s <= n)%nat -> removes s (strip_tags s).
Proof.
  revert s; induction n as [|n IH]; intros s Hn.
  - destruct s; [constructor | simpl in Hn; lia].
  - destruct s as [|c r]; [constructor|].
    destruct (is_lt c && opens_tag r) eqn:E.
    + apply andb_true_iff in E as [Hc Ho].
      apply is_lt_true in Hc; subst c.
      destruct r as [|c0 r0]; [discriminate|].
      cbn [opens_tag] in Ho. apply andb_true_iff in Ho as [Hc0 Hgt].
      destruct (has_gt_split _ Hgt) as (inner & rest & -> & Hin).
      assert (Hm : tag_match ("<" ++ String c0 inner ++ ">")).
      { constructor. simpl. rewrite Hin. now destruct (is_gt c0). }
      replace (String "<" (String c0 (inner ++ String ">" rest)))
        with (("<" ++ String c0 inner ++ ">") ++ rest)%string
        by (simpl; now rewrite app_assoc_string).
      rewrite (strip_tags_match _ rest Hm).
      apply removes_match; [exact Hm|].
      apply IH. simpl in Hn. rewrite string_length_app in Hn. simpl in Hn. lia.
    + assert (Hk : forall m rest, tag_match m -> String c r <> (m ++ rest)%string).
      { intros m rest Hm Heq. rewrite (head_match_opens c r m rest Hm Heq) in E.
        discriminate. }
      rewrite (strip_tags_keep c r Hk).
      apply removes_keep; [exact Hk|].
      apply IH. simpl in Hn. lia.
Qed.

(** [strip_tags] removes what [re.sub] removes, and nothing else does. *)
Lemma strip_tags_removes (s : string) : removes s (strip_tags s).
Proof. apply (strip_tags_removes_upto (String.length s)). lia. Qed.

Lemma removes_unique (s out : string) : removes s out -> out = strip_tags s.
Proof.
  induction 1 as [|m rest out Hm _ IH|c rest out Hk _ IH].
  - reflexivity.
  - now rewrite strip_tags_match.
  - now rewrite strip_tags_keep, IH.
Qed.

(** Text without ['<'] has no tag. *)
Lemma strip_tags_untagged (s : string) : has_lt s = false -> strip_tags s = s.
Proof.
  induction s as [|c s IH]; [reflexivity|].
  simpl. intros H. apply orb_false_iff in H as [Hc Hs].
  now rewrite Hc, IH.
Qed.

(** ** The monad *)

Lemma bind_ok {A B} (m : M A) (k : A -> M B) (t t' : trace) (a : A) :
  m t = (Ok a, t') -> bind m k t = k a t'.
Proof. unfold bind. now intros ->. Qed.

Lemma bind_raise {A B} (m : M A) (k : A -> M B) (t t' : trace) (e : exn) :
  m t = (Raise e, t') -> bind m k t = (Raise e, t').
Proof. unfold bind. now intros ->. Qed.

Lemma try_ok {A} (m : M A) (h : exn -> M A) (t t' : trace) (a : A) :
  m t = (Ok a, t') -> try_except m h t = (Ok a, t').
Proof. unfold try_except. now intros ->. Qed.

Lemma try_raise {A} (m : M A) (h : exn -> M A) (t t' : trace) (e : exn) :
  m t = (Raise e, t') -> try_except m h t = h e t'.
Proof. unfold try_except. now intros ->. Qed.

Lemma posts_app (a b : trace) : posts (a ++ b) = posts a ++ posts b.
Proof. apply filter_app. Qed.

Lemma calls_app (a b : trace) : calls (a ++ b) = calls a ++ calls b.
Proof. apply flat_map_app. Qed.

Lemma saved_count_app (a b : trace) :
  saved_count (a ++ b) = saved_count a + saved_count b.
Proof. unfold saved_count. rewrite filter_app, List.length_app. lia. Qed.

(** Unfold one layer of the monad and compute. *)
Ltac run :=
  cbv beta iota zeta delta [bind ret raise lift log emit try_except py_get py_len py_iter].

Ltac norm_trace := repeat rewrite <- app_assoc; cbn [app].

(** Give as witness the events that the run added to the trace. *)
Ltac take_new :=
  match goal with
  | |- exists new, (_, ?t ++ ?x) = (_, ?t ++ new) /\ _ => exists x
  | |- exists b new, (_, ?t ++ ?x) = (Ok b, ?t ++ new) /\ _ => eexists; exists x
  end.

(** ** The status table *)

Lemma outcome_of_status_cases (status : Z) :
  outcome_of_status status =
  if status =? 201 then Saved
  else if status =? 403 then AuthFailed
  else if status =? 400 then BadRequest
  else if status =? 500 then ServiceUnavailable
  else UnexpectedStatus.
Proof.
  destruct status as [|p|p]; try reflexivity.
  do 9 (try (destruct p as [p|p|]; try reflexivity)).
Qed.

Lemma is_saved_status (status : Z) :
  is_saved (outcome_of_status status) = (status =? 201).
Proof.
  rewrite outcome_of_status_cases.
  destruct (status =? 201); [reflexivity|].
  destruct (status =? 403); [reflexivity|].
  destruct (status =? 400); [reflexivity|].
  destruct (status =? 500); reflexivity.
Qed.

(** ** [add_article] *)

(** One run of [add_article]: the first log line, one call, and the lines
    of the branch taken; the result is never an exception. *)
Lemma add_article_run (self : InstapaperClient) (url title selection : value) (t : trace) :
  let shown := py_or title url in
  let data := form_data self url title selection in
  let t1 := t ++ [Log INFO "Adding article to Instapaper: {title or url}" [shown]] in
  let r := upstream t1 INSTAPAPER_ADD_URL data 30 in
  exists report,
    add_article self url title selection t
    = (Ok (is_saved (outcome_of r)), t1 ++ Post INSTAPAPER_ADD_URL data 30 r :: report)
    /\ posts report = []
    /\ (reported report = Some (outcome_of r)
        \/ exists e, r = Raise e /\ is_request_exception e = false).
Proof.
  intros shown data t1 r.
  unfold add_article, requests_post. run.
  fold shown data t1 r.
  destruct r as [resp|e] eqn:Hr.
  - cbn [outcome_of]. rewrite is_saved_status, outcome_of_status_cases.
    destruct (status_code resp =? 201) eqn:E201.
    { run.
      destruct (header_in "Content-Location" (headers resp));
        destruct (header_in "X-Instapaper-Title" (headers resp)); run;
        eexists; (split; [norm_trace; reflexivity |]);
        (split; [reflexivity | left; reflexivity]). }
    destruct (status_code resp =? 403) eqn:E403.
    { run. eexists; (split; [norm_trace; reflexivity |]);
        (split; [reflexivity | left; reflexivity]). }
    destruct (status_code resp =? 400) eqn:E400.
    { run. eexists; (split; [norm_trace; reflexivity |]);
        (split; [reflexivity | left; reflexivity]). }
    destruct (status_code resp =? 500) eqn:E500.
    { run. eexists; (split; [norm_trace; reflexivity |]);
        (split; [reflexivity | left; reflexivity]). }
    run. eexists; (split; [norm_trace; reflexivity |]);
      (split; [reflexivity | left; reflexivity]).
  - destruct e; run;
      eexists; (split; [norm_trace; reflexivity |]);
      (split; [reflexivity |]);
      solve [left; reflexivity | right; eexists; split; reflexivity].
Qed.

(** C1. [add_article] makes one call and its outcome follows the status of
    the reply: 201 is Saved and the only success; 403, 400, 500 and any
    other status are AuthFailed, BadRequest, ServiceUnavailable and
    UnexpectedStatus, each reported by its own log line and each a failure;
    a [RequestException] is caught and reported as a connection error, and
    no exception of the call leaves the function. *)
Theorem add_article_outcome (self : InstapaperClient) (url title selection : value)
    (t : trace) :
  let shown := py_or title url in
  let data := form_data self url title selection in
  let t1 := t ++ [Log INFO "Adding article to Instapaper: {title or url}" [shown]] in
  let r := upstream t1 INSTAPAPER_ADD_URL data 30 in
  exists report,
    add_article self url title selection t
    = (Ok (is_saved (outcome_of r)), t1 ++ Post INSTAPAPER_ADD_URL data 30 r :: report)
    /\ posts report = []
    /\ (reported report = Some (outcome_of r)
        \/ exists e, r = Raise e /\ is_request_exception e = false)
    /\ (is_saved (outcome_of r) = true <-> exists resp, r = Ok resp /\ status_code resp = 201).
Proof.
  intros shown data t1 r.
  destruct (add_article_run self url title selection t) as (report & Hrun & Hposts & Hrep).
  exists report. split; [exact Hrun|]. split; [exact Hposts|]. split; [exact Hrep|].
  split.
  - destruct r as [resp|e]; cbn [outcome_of is_saved]; [|discriminate].
    rewrite is_saved_status. intros H. exists resp. split; [reflexivity|].
    now apply Z.eqb_eq.
  - intros (resp & -> & Hs). cbn [outcome_of]. rewrite is_saved_status.
    now apply Z.eqb_eq.
Qed.

(** ** [verify_webhook_signature] *)

Lemma compare_digest_same (a : string) (t : trace) :
  is_ascii a = true -> compare_digest a a t = (Ok true, t).
Proof.
  intros H. unfold compare_digest. rewrite H. cbn [andb].
  now rewrite String.eqb_refl.
Qed.

(** C2. The signature that the sender computes for a payload under a
    non-empty secret, the hexadecimal HMAC-SHA256, is accepted by
    [verify_webhook_signature] under the same secret. *)
Theorem verify_accepts_generated (payload : bytes) (secret : string) (t : trace) :
  secret <> "" ->
  generate_signature payload secret = hmac_hexdigest (encode_utf8 secret) payload
  /\ verify_webhook_signature payload (generate_signature payload secret) (Some secret) t
     = (Ok true, t).
Proof.
  intros Hs. destruct secret as [|c secret]; [contradiction|].
  split; [reflexivity|].
  cbn [verify_webhook_signature generate_signature].
  apply compare_digest_same, is_ascii_hex.
Qed.

(** C9. Without a secret (unset or empty) [verify_webhook_signature] returns
    true for every payload and every signature, after a warning; the
    signature is not looked at. *)
Theorem verify_without_secret (payload : bytes) (signature : string) (t : trace) :
  let warning :=
    Log WARNING "No webhook secret configured - skipping signature verification" [] in
  verify_webhook_signature payload signature None t = (Ok true, t ++ [warning])
  /\ verify_webhook_signature payload signature (Some "") t = (Ok true, t ++ [warning]).
Proof. split; reflexivity. Qed.

(** ** The description *)

Lemma description_of_text (content : string) :
  content <> "" ->
  description_of (VStr content)
  = Ok (VStr (if len (strip_tags content) >? 200
              then take 200 (strip_tags content) ++ "..."
              else strip_tags content)).
Proof.
  intros H. destruct content as [|c r]; [contradiction|].
  unfold description_of. cbn [truthy re_sub_tags].
  now destruct (len (strip_tags (String c r)) >? 200).
Qed.

Lemma len_gt_200 (s : string) :
  (len s >? 200) = true <-> (200 < String.length s)%nat.
Proof. unfold len. rewrite Z.gtb_lt. lia. Qed.

Lemma length_truncated (s : string) :
  (200 < String.length s)%nat -> String.length (take 200 s ++ "...") = 203%nat.
Proof.
  intros H. rewrite string_length_app, length_take.
  change (String.length "...") with 3%nat. lia.
Qed.

(** C3. The description of a non-empty content is the content without its
    tags, cut after 200 characters and followed by "..." when it is longer,
    whole otherwise; 500 characters without a tag give 203; an empty or
    absent content gives no description. *)
Theorem description_of_content (content : string) :
  content <> "" ->
  let text := strip_tags content in
  removes content text
  /\ ((200 < String.length text)%nat ->
      description_of (VStr content) = Ok (VStr (take 200 text ++ "..."))
      /\ String.length (take 200 text ++ "...") = 203%nat)
  /\ ((String.length text <= 200)%nat ->
      description_of (VStr content) = Ok (VStr text))
  /\ (has_lt content = false -> String.length content = 500%nat ->
      exists note,
        description_of (VStr content) = Ok (VStr note)
        /\ String.length note = 203%nat)
  /\ description_of (VStr "") = Ok VNone
  /\ description_of VNone = Ok VNone
  /\ (forall d, dict_get d "content" = None ->
      description_of (get_or d "content" (VStr "")) = Ok VNone).
Proof.
  intros Hne text.
  pose proof (description_of_text content Hne) as Hd. fold text in Hd.
  split; [apply strip_tags_removes|].
  split.
  { intros Hlong. split; [|now apply length_truncated].
    rewrite Hd. apply len_gt_200 in Hlong. now rewrite Hlong. }
  split.
  { intros Hshort. rewrite Hd.
    destruct (len text >? 200) eqn:E; [|reflexivity].
    apply len_gt_200 in E. lia. }
  split.
  { intros Hplain Hlen.
    assert (Ht : text = content) by now apply strip_tags_untagged.
    assert (Hlong : (200 < String.length text)%nat) by (rewrite Ht; lia).
    exists (take 200 text ++ "...")%string.
    split; [|now apply length_truncated].
    rewrite Hd. apply len_gt_200 in Hlong. now rewrite Hlong. }
  split; [reflexivity|].
  split; [reflexivity|].
  intros d Hd'. unfold get_or. now rewrite Hd'.
Qed.

(** ** One entry *)

Lemma quiet_report (report : trace) :
  posts report = [] -> calls report = [] /\ saved_count report = 0.
Proof.
  induction report as [|e report IH]; [split; reflexivity|].
  destruct e as [lv msg args|url data timeout r]; cbn [posts filter is_post].
  - intros H. destruct (IH H) as [Hc Hs]. split; [exact Hc|].
    unfold saved_count in *. cbn [filter]. exact Hs.
  - discriminate.
Qed.

Lemma saved_count_log (lv : level) (msg : string) (args : list value) (t : trace) :
  saved_count (Log lv msg args :: t) = saved_count t.
Proof. reflexivity. Qed.

Lemma saved_count_post (url : string) (data : list (string * value)) (timeout : Z)
    (r : result response) (t : trace) :
  saved_count (Post url data timeout r :: t)
  = (if is_saved (outcome_of r) then 1 else 0) + saved_count t.
Proof.
  unfold saved_count. cbn [filter].
  destruct (is_saved (outcome_of r)); cbn [List.length]; lia.
Qed.

Lemma form_data_selection (self : InstapaperClient) (url title selection : value) :
  dict_get (form_data self url title selection) "selection"
  = if truthy selection then Some selection else None.
Proof.
  unfold form_data. destruct (truthy title), (truthy selection); reflexivity.
Qed.

(** One turn of the loop on an entry that is an object: it ends without an
    exception, makes the call of the entry if it has one, and counts it if
    it was saved. *)
Lemma new_entry_step_dict (self : InstapaperClient) (d : list (string * value))
    (count : Z) (t : trace) :
  exists new,
    new_entry_step self (VDict d) count t = (Ok (count + saved_count new), t ++ new)
    /\ calls new = entry_calls self (VDict d).
Proof.
  unfold new_entry_step, new_entry_try, entry_calls, entry_calls_with. run.
  destruct (truthy (get_or d "url" VNone)) eqn:Hu; cbn [negb]; run.
  2:{ take_new. split; [|reflexivity].
      rewrite saved_count_log. now rewrite Z.add_0_r. }
  destruct (description_of (get_or d "content" (VStr ""))) as [description|e]; run.
  2:{ take_new. split; [|reflexivity].
      rewrite saved_count_log. now rewrite Z.add_0_r. }
  destruct (add_article_run self (get_or d "url" VNone) (get_or d "title" (VStr ""))
              description t) as (report & Hrun & Hq & _).
  destruct (quiet_report report Hq) as [Hcalls Hcount].
  rewrite Hrun. run.
  match goal with
  | |- context [is_saved (outcome_of ?r)] => destruct (is_saved (outcome_of r)) eqn:Hs
  end; run; norm_trace; take_new.
  - split.
    + rewrite saved_count_log, saved_count_post, Hs, saved_count_app, Hcount.
      rewrite saved_count_log. reflexivity.
    + change (calls (?a :: ?b :: ?c)) with (calls [a; b] ++ calls c).
      rewrite calls_app, Hcalls. reflexivity.
  - split.
    + rewrite saved_count_log, saved_count_post, Hs, saved_count_app, Hcount.
      rewrite saved_count_log. now rewrite Z.add_0_r.
    + change (calls (?a :: ?b :: ?c)) with (calls [a; b] ++ calls c).
      rewrite calls_app, Hcalls. reflexivity.
Qed.

(** A saved entry that is an object, with a user name configured: no
    exception, the call of the entry if it has one, and success exactly when
    that call was saved. *)
Lemma process_saved_entry_dict (user : string) (d : list (string * value)) (t : trace) :
  INSTAPAPER_USERNAME = Some user -> user <> "" ->
  exists b new,
    process_saved_entry (VDict d) t = (Ok b, t ++ new)
    /\ calls new = saved_entry_calls (Client user INSTAPAPER_PASSWORD) (VDict d)
    /\ b = (0 <? saved_count new)
    /\ (b = true ->
        exists t1 url data timeout,
          is_saved (outcome_of (upstream t1 url data timeout)) = true).
Proof.
  intros Hcfg Hne. destruct user as [|c user]; [contradiction|].
  unfold process_saved_entry, saved_entry_calls, entry_calls_with. rewrite Hcfg. run.
  destruct (truthy (get_or d "url" VNone)) eqn:Hu; cbn [negb]; run.
  2:{ take_new. split; [reflexivity|]. split; [reflexivity|].
      split; [reflexivity | discriminate]. }
  destruct (description_of (get_or d "content" (VStr ""))) as [description|e]; run.
  2:{ take_new. split; [reflexivity|]. split; [reflexivity|].
      split; [reflexivity | discriminate]. }
  destruct (add_article_run (Client (String c user) INSTAPAPER_PASSWORD)
              (get_or d "url" VNone) (get_or d "title" (VStr ""))
              (with_saved_tag description) t) as (report & Hrun & Hq & _).
  destruct (quiet_report report Hq) as [Hcalls Hcount].
  rewrite Hrun. run.
  match goal with
  | |- context [is_saved (outcome_of ?r)] => destruct (is_saved (outcome_of r)) eqn:Hs
  end; run; norm_trace; take_new.
  - split; [reflexivity|]. split.
    { change (calls (?a :: ?b :: ?c)) with (calls [a; b] ++ calls c).
      rewrite calls_app, Hcalls. reflexivity. }
    split.
    { rewrite saved_count_log, saved_count_post, Hs, saved_count_app, Hcount.
      reflexivity. }
    intros _. eexists _, _, _, _. exact Hs.
  - split; [reflexivity|]. split.
    { change (calls (?a :: ?b :: ?c)) with (calls [a; b] ++ calls c).
      rewrite calls_app, Hcalls. reflexivity. }
    split; [|discriminate].
    rewrite saved_count_log, saved_count_post, Hs, saved_count_app, Hcount.
    reflexivity.
Qed.

(** Without a user name nothing is attempted. *)
Lemma process_saved_entry_unconfigured (entry : value) (t : trace) :
  configured_client = None ->
  process_saved_entry entry t
  = (Ok false, t ++ [Log ERROR "Instapaper username not configured" []]).
Proof.
  unfold configured_client, process_saved_entry.
  destruct INSTAPAPER_USERNAME as [[|c u]|]; [reflexivity | discriminate | reflexivity].
Qed.

Lemma process_new_entries_unconfigured (entries : value) (t : trace) :
  configured_client = None ->
  process_new_entries entries t
  = (Ok 0, t ++ [Log ERROR "Instapaper username not configured" []]).
Proof.
  unfold configured_client, process_new_entries.
  destruct INSTAPAPER_USERNAME as [[|c u]|]; [reflexivity | discriminate | reflexivity].
Qed.

Lemma process_new_entries_configured (user : string) (entries : list value) (t : trace) :
  INSTAPAPER_USERNAME = Some user -> user <> "" ->
  configured_client = Some (Client user INSTAPAPER_PASSWORD)
  /\ process_new_entries (VList entries) t
     = for_entries (Client user INSTAPAPER_PASSWORD) entries 0 t.
Proof.
  intros Hcfg Hne. unfold configured_client, process_new_entries. rewrite Hcfg.
  destruct user as [|c u]; [contradiction|]. split; reflexivity.
Qed.

(** ** The loop *)

Lemma for_entries_dicts (self : InstapaperClient) (entries : list value) :
  forallb is_dict entries = true ->
  forall (count : Z) (t : trace),
  exists new,
    for_entries self entries count t = (Ok (count + saved_count new), t ++ new)
    /\ calls new = flat_map (entry_calls self) entries.
Proof.
  induction entries as [|entry rest IH]; intros Hd count t.
  - exists []. rewrite app_nil_r. split; [|reflexivity].
    cbn [for_entries]. unfold ret. now rewrite Z.add_0_r.
  - cbn [forallb] in Hd. apply andb_true_iff in Hd as [He Hrest].
    destruct entry as [| | | | |l|d]; try discriminate.
    destruct (new_entry_step_dict self d count t) as (new1 & Hstep & Hcalls1).
    destruct (IH Hrest (count + saved_count new1) (t ++ new1))
      as (new2 & Hloop & Hcalls2).
    exists (new1 ++ new2).
    cbn [for_entries]. rewrite (bind_ok _ _ _ _ _ Hstep), Hloop.
    rewrite saved_count_app, calls_app, Hcalls1, Hcalls2, app_assoc, Z.add_assoc.
    split; reflexivity.
Qed.

Lemma url_missing_or_empty_falsy (d : list (string * value)) :
  dict_get d "url" = None \/ dict_get d "url" = Some VNone
  \/ dict_get d "url" = Some (VStr "") ->
  truthy (get_or d "url" VNone) = false.
Proof. unfold get_or. now intros [-> | [-> | ->]]. Qed.

Lemma entry_calls_at_most_one (note : value -> value) (self : InstapaperClient)
    (entry : value) :
  (List.length (entry_calls_with note self entry) <= 1)%nat.
Proof.
  unfold entry_calls_with. destruct entry; cbn [List.length]; try lia.
  destruct (truthy _); cbn [List.length]; try lia.
  destruct (description_of _); cbn [List.length]; lia.
Qed.

(** C4. An entry whose [url] is missing (absent or null) or empty is skipped
    on both paths:
    it has no call, the turn of the loop leaves the count as it was and only
    logs a warning, a batch made of it alone counts 0, and
    [process_saved_entry] returns false; none of them calls the service. *)
Theorem entry_without_url_skipped (d : list (string * value)) (self : InstapaperClient)
    (count : Z) (t : trace) :
  dict_get d "url" = None \/ dict_get d "url" = Some VNone
  \/ dict_get d "url" = Some (VStr "") ->
  entry_calls self (VDict d) = []
  /\ saved_entry_calls self (VDict d) = []
  /\ new_entry_step self (VDict d) count t
     = (Ok count,
        t ++ [Log WARNING "Entry missing URL: {entry.get('id')}" [get_or d "id" VNone]])
  /\ (exists new,
        process_new_entries (VList [VDict d]) t = (Ok 0, t ++ new) /\ posts new = [])
  /\ (exists new,
        process_saved_entry (VDict d) t = (Ok false, t ++ new) /\ posts new = []).
Proof.
  intros Hurl. apply url_missing_or_empty_falsy in Hurl.
  assert (Hstep : forall self count t,
    new_entry_step self (VDict d) count t
    = (Ok count,
       t ++ [Log WARNING "Entry missing URL: {entry.get('id')}" [get_or d "id" VNone]])).
  { intros self' count' t'. unfold new_entry_step, new_entry_try. run.
    rewrite Hurl. reflexivity. }
  split; [unfold entry_calls, entry_calls_with; now rewrite Hurl|].
  split; [unfold saved_entry_calls, entry_calls_with; now rewrite Hurl|].
  split; [apply Hstep|].
  split.
  - unfold process_new_entries.
    destruct INSTAPAPER_USERNAME as [[|c u]|]; run;
      try (eexists; split; reflexivity).
    cbn [for_entries]. rewrite (bind_ok _ _ _ _ _ (Hstep _ _ _)).
    eexists; split; reflexivity.
  - unfold process_saved_entry.
    destruct INSTAPAPER_USERNAME as [[|c u]|]; run;
      try (eexists; split; reflexivity).
    rewrite Hurl. cbn [negb]. run. eexists; split; reflexivity.
Qed.

(** C5, for the batches that the function is declared for. When every
    entry is an object, [process_new_entries] returns a count, whatever
    happens to an entry; its calls are those of the entries in the order of
    the payload, at most one each; the count is the number of calls answered
    with a 201. *)
Theorem process_new_entries_isolated (entries : list value) (t : trace) :
  forallb is_dict entries = true -> batch_isolated entries t.
Proof.
  intros Hd. unfold batch_isolated.
  destruct configured_client as [self|] eqn:Hc.
  - unfold configured_client in Hc.
    destruct INSTAPAPER_USERNAME as [user|] eqn:Hu; [|discriminate].
    destruct user as [|c u]; [discriminate|]. injection Hc as <-.
    destruct (for_entries_dicts (Client (String c u) INSTAPAPER_PASSWORD) entries Hd 0 t)
      as (new & Hloop & Hcalls).
    exists (saved_count new), new.
    unfold process_new_entries. rewrite Hu. run.
    split; [exact Hloop|]. split; [exact Hcalls | reflexivity].
  - exists 0, [Log ERROR "Instapaper username not configured" []].
    split; [now apply process_new_entries_unconfigured|].
    split; reflexivity.
Qed.

(** ** The saved entry and its tag *)

Lemma description_of_shape (content description : value) :
  description_of content = Ok description ->
  description = VNone \/ exists text, description = VStr text.
Proof.
  unfold description_of. destruct (truthy content).
  - destruct (re_sub_tags content) as [text|e]; [|discriminate].
    destruct (len text >? 200); intros [= <-]; right; eexists; reflexivity.
  - intros [= <-]. now left.
Qed.

Lemma with_saved_tag_str (description : value) :
  (description = VNone \/ exists text, description = VStr text) ->
  exists note,
    with_saved_tag description = VStr note
    /\ starts_with SAVED_TAG note = true
    /\ (forall text, description = VStr text -> text <> "" ->
        note = (SAVED_TAG ++ " " ++ text)%string)
    /\ (description = VNone \/ description = VStr "" -> note = SAVED_TAG).
Proof.
  intros [-> | [text ->]].
  - exists SAVED_TAG. split; [reflexivity|]. split; [reflexivity|].
    split; [discriminate | reflexivity].
  - destruct text as [|c text].
    + exists SAVED_TAG. split; [reflexivity|]. split; [reflexivity|].
      split; [intros ? [= <-] H; now contradiction H | reflexivity].
    + exists (SAVED_TAG ++ " " ++ String c text)%string.
      split; [reflexivity|]. split; [reflexivity|].
      split; [now intros ? [= <-] _ | intros [H | H]; discriminate].
Qed.

(** C8. With a URL and a content that can be stripped, the call of
    [process_saved_entry] carries as selection a note that starts with
    "[Saved from Miniflux]": the tag, a space and the description when
    there is one, the tag alone when there is none; the call of the batch
    path carries the description as it is, and no selection without one. *)
Theorem saved_tag_on_save_path_only (user : string) (d : list (string * value))
    (description : value) (t : trace) :
  INSTAPAPER_USERNAME = Some user -> user <> "" ->
  truthy (get_or d "url" VNone) = true ->
  description_of (get_or d "content" (VStr "")) = Ok description ->
  let self := Client user INSTAPAPER_PASSWORD in
  let url := get_or d "url" VNone in
  let title := get_or d "title" (VStr "") in
  (exists b new note,
     process_saved_entry (VDict d) t = (Ok b, t ++ new)
     /\ calls new = [(INSTAPAPER_ADD_URL, form_data self url title (VStr note), 30)]
     /\ dict_get (form_data self url title (VStr note)) "selection" = Some (VStr note)
     /\ starts_with SAVED_TAG note = true
     /\ (forall text, description = VStr text -> text <> "" ->
         note = (SAVED_TAG ++ " " ++ text)%string)
     /\ (description = VNone \/ description = VStr "" -> note = SAVED_TAG))
  /\ (exists count new,
        new_entry_step self (VDict d) 0 t = (Ok count, t ++ new)
        /\ calls new = [(INSTAPAPER_ADD_URL, form_data self url title description, 30)]
        /\ dict_get (form_data self url title description) "selection"
           = (if truthy description then Some description else None)).
Proof.
  intros Hcfg Hne Hurl Hdesc self url title.
  split.
  - destruct (process_saved_entry_dict user d t Hcfg Hne) as (b & new & Hrun & Hcalls & _).
    destruct (with_saved_tag_str description (description_of_shape _ _ Hdesc))
      as (note & Htag & Hstart & Hsome & Hnone).
    exists b, new, note.
    split; [exact Hrun|].
    split.
    { rewrite Hcalls. unfold saved_entry_calls, entry_calls_with.
      rewrite Hurl, Hdesc, Htag. reflexivity. }
    split.
    { rewrite form_data_selection.
      destruct note as [|c note]; [discriminate Hstart | reflexivity]. }
    split; [exact Hstart|]. split; assumption.
  - destruct (new_entry_step_dict self d 0 t) as (new & Hrun & Hcalls).
    exists (0 + saved_count new), new.
    split; [exact Hrun|].
    split.
    { rewrite Hcalls. unfold entry_calls, entry_calls_with.
      rewrite Hurl, Hdesc. reflexivity. }
    apply form_data_selection.
Qed.

(** ** The handler *)

Lemma process_saved_entry_object (d : list (string * value)) (t : trace) :
  exists b new,
    process_saved_entry (VDict d) t = (Ok b, t ++ new)
    /\ (b = true ->
        exists t1 url data timeout,
          is_saved (outcome_of (upstream t1 url data timeout)) = true).
Proof.
  destruct configured_client as [self|] eqn:Hc.
  - unfold configured_client in Hc.
    destruct INSTAPAPER_USERNAME as [user|] eqn:Hu; [|discriminate].
    assert (Hne : user <> "") by (destruct user; [discriminate | discriminate]).
    destruct (process_saved_entry_dict user d t Hu Hne)
      as (b & new & Hrun & _ & _ & Hb).
    exists b, new. split; assumption.
  - exists false, [Log ERROR "Instapaper username not configured" []].
    split; [now apply process_saved_entry_unconfigured | discriminate].
Qed.

(** C7. A [save_entry] request that passes the signature check, for an
    entry with a URL, when the service saves nothing: the answer is a 200
    whose body says [status] "error", [event_type] "save_entry",
    [entry_processed] false, and [entry_title] the title of the entry. *)
Theorem save_entry_failure_is_200 (req : request) (d e : list (string * value))
    (t : trace) :
  signature_accepted req ->
  header_get (req_headers req) "X-Miniflux-Event-Type" "" = "save_entry" ->
  get_json req = Ok (VDict d) ->
  dict_get d "entry" = Some (VDict e) ->
  truthy (get_or e "url" VNone) = true ->
  (forall t1 url data timeout,
     is_saved (outcome_of (upstream t1 url data timeout)) = false) ->
  exists t',
    webhook_handler req t
    = (Ok (jsonify [("status", VStr "error");
                    ("event_type", VStr "save_entry");
                    ("entry_processed", VBool false);
                    ("entry_title", get_or e "title" (VStr "Unknown title"))], 200), t').
Proof.
  intros Hsig Hev Hjson Hentry _ Hfail.
  unfold webhook_handler. run.
  rewrite Hsig, Hjson, Hev. run. cbn [negb].
  assert (Hd : truthy (VDict d) = true) by (destruct d; [discriminate | reflexivity]).
  rewrite Hd. cbn [negb]. run.
  change ("save_entry" =? "new_entries")%string with false.
  change ("save_entry" =? "save_entry")%string with true.
  assert (Hget : get_or d "entry" (VDict []) = VDict e)
    by (unfold get_or; now rewrite Hentry).
  run. rewrite Hget. run.
  match goal with
  | |- context [process_saved_entry (VDict e) ?t0] =>
      destruct (process_saved_entry_object e t0) as (b & new & Hrun & Hb)
  end.
  rewrite Hrun. run.
  destruct b.
  - destruct (Hb eq_refl) as (t1 & url & data & timeout & Hs).
    rewrite Hfail in Hs. discriminate.
  - eexists. reflexivity.
Qed.

(** C10. A request that passes the signature check and whose parsed JSON is
    falsy ([None], [{}], [[]], [0], [false], the empty string) is answered
    with 400 and [{"error": "Empty payload"}]; the event type is not looked
    at and nothing is called, the only effect is one log record. *)
Theorem falsy_payload_rejected (req : request) (data : value) (t : trace) :
  signature_accepted req ->
  get_json req = Ok data ->
  truthy data = false ->
  webhook_handler req t
  = (Ok (jsonify [("error", VStr "Empty payload")], 400),
     t ++ [Log ERROR "Empty payload received" []])
  /\ Forall (fun v => truthy v = false)
       [VNone; VDict []; VList []; VInt 0; VBool false; VStr ""].
Proof.
  intros Hsig Hjson Hfalsy. split.
  - unfold webhook_handler. run. rewrite Hsig, Hjson. run. cbn [negb].
    rewrite Hfalsy. reflexivity.
  - repeat constructor.
Qed.

(** Split on what the next step of a run gives. *)
Ltac next_step :=
  match goal with
  | |- context [check_signature ?p ?s ?t] =>
      destruct (check_signature p s t) as [[[|]|?] ?]
  | |- context [get_json ?r] => destruct (get_json r) as [?|?]
  | |- context [truthy ?v] => destruct (truthy v)
  | |- context [(?a =? ?b)%string] => destruct (a =? b)%string
  | |- context [process_new_entries ?v ?t] =>
      destruct (process_new_entries v t) as [[?|?] ?]
  | |- context [process_saved_entry ?v ?t] =>
      destruct (process_saved_entry v t) as [[[|]|?] ?]
  | |- context [match ?v with VNone => _ | _ => _ end] => destruct v
  end.

Ltac answer :=
  eexists; eexists; split; [reflexivity|];
  first [ left; split; [reflexivity | split; reflexivity]
        | right; split; [auto 6 | eexists; reflexivity] ].

(** C6, as the handler does it. Every request gets an answer, never an
    exception; the answer is either a 200 whose body has [status] and
    [event_type] (a batch, a saved entry, an event that is ignored), or a
    403 (signature), a 400 (JSON that does not parse, empty payload) or a
    500 (anything unexpected) whose body is the single field [error]. *)
Theorem webhook_response_shape (req : request) (t : trace) :
  exists resp t',
    webhook_handler req t = (Ok resp, t') /\ webhook_body_ok resp.
Proof.
  unfold webhook_handler, webhook_body_ok. run.
  repeat (first [ answer | next_step; cbn [negb]; run ]).
Qed.

(** * Further properties of the service *)

(** ** The expected signature *)

Lemma length_be_bytes (n : nat) (x : Z) : List.length (Sha256.be_bytes n x) = n.
Proof. induction n as [|n IH]; simpl; [reflexivity | now rewrite IH]. Qed.

Lemma length_compress (h block : list Z) :
  List.length h = 8%nat -> List.length (Sha256.compress h block) = 8%nat.
Proof.
  intros Hh. unfold Sha256.compress.
  rewrite List.length_map, List.length_combine, Hh. reflexivity.
Qed.

Lemma length_fold_compress (blocks : list (list Z)) (h : list Z) :
  List.length h = 8%nat ->
  List.length (fold_left Sha256.compress blocks h) = 8%nat.
Proof.
  revert h; induction blocks as [|b blocks IH]; intros h Hh; [exact Hh|].
  cbn [fold_left]. apply IH. now apply length_compress.
Qed.

Lemma length_flat_be_bytes (ws : list Z) :
  List.length (flat_map (Sha256.be_bytes 4) ws) = (4 * List.length ws)%nat.
Proof.
  induction ws as [|w ws IH]; [reflexivity|].
  cbn [flat_map]. rewrite List.length_app, length_be_bytes, IH. cbn [List.length]. lia.
Qed.

Lemma length_digest (msg : bytes) : List.length (Sha256.digest msg) = 32%nat.
Proof.
  unfold Sha256.digest, Sha256.digest_words.
  rewrite List.length_map, length_flat_be_bytes, length_fold_compress; reflexivity.
Qed.

Lemma length_hmac_hexdigest (key msg : bytes) :
  String.length (hmac_hexdigest key msg) = 64%nat.
Proof.
  unfold hmac_hexdigest, hmac_sha256. now rewrite length_hex, length_digest.
Qed.

(** The three ways [verify_webhook_signature] ends when it has a secret. *)
Lemma verify_with_key (payload : bytes) (signature key : string) (t : trace) :
  key <> "" ->
  let expected := hmac_hexdigest (encode_utf8 key) payload in
  (signature = expected ->
   verify_webhook_signature payload signature (Some key) t = (Ok true, t))
  /\ (is_ascii signature = true -> signature <> expected ->
      verify_webhook_signature payload signature (Some key) t = (Ok false, t))
  /\ (is_ascii signature = false ->
      verify_webhook_signature payload signature (Some key) t = (Raise TypeError, t))
  /\ (fst (verify_webhook_signature payload signature (Some key) t) = Ok true ->
      signature = expected /\ String.length signature = 64%nat).
Proof.
  intros Hk expected. destruct key as [|c key]; [contradiction|].
  cbn [verify_webhook_signature]. fold expected.
  unfold compare_digest.
  assert (He : is_ascii expected = true) by apply is_ascii_hex.
  rewrite He. cbn [andb].
  split; [|split; [|split]].
  - intros ->. rewrite He. now rewrite String.eqb_refl.
  - intros Ha Hne. rewrite Ha.
    destruct (String.eqb_spec expected signature) as [E|E]; [now subst | reflexivity].
  - intros Ha. now rewrite Ha.
  - destruct (is_ascii signature); [|discriminate].
    unfold ret. cbn [fst].
    destruct (String.eqb_spec expected signature) as [E|E]; [|discriminate].
    intros _. subst signature. split; [reflexivity | apply length_hmac_hexdigest].
Qed.

(** X1. With a secret, [verify_webhook_signature] accepts the hexadecimal
    HMAC of the payload and nothing else: any other ASCII signature is
    refused, a signature with a character outside ASCII raises [TypeError],
    and an accepted signature is 64 characters long. No log record is
    written. *)
Theorem verify_only_expected (payload : bytes) (signature key : string) (t : trace) :
  key <> "" ->
  let expected := hmac_hexdigest (encode_utf8 key) payload in
  (signature = expected ->
   verify_webhook_signature payload signature (Some key) t = (Ok true, t))
  /\ (is_ascii signature = true -> signature <> expected ->
      verify_webhook_signature payload signature (Some key) t = (Ok false, t))
  /\ (is_ascii signature = false ->
      verify_webhook_signature payload signature (Some key) t = (Raise TypeError, t))
  /\ (fst (verify_webhook_signature payload signature (Some key) t) = Ok true ->
      signature = expected /\ String.length signature = 64%nat).
Proof. apply verify_with_key. Qed.

(** When the check of the handler lets a request through. *)
Lemma check_signature_passes (req : request) :
  signature_accepted req <->
  (MINIFLUX_WEBHOOK_SECRET = None \/ MINIFLUX_WEBHOOK_SECRET = Some ""
   \/ exists key,
        MINIFLUX_WEBHOOK_SECRET = Some key
        /\ header_get (req_headers req) "X-Miniflux-Signature" ""
           = hmac_hexdigest (encode_utf8 key) (get_data req)).
Proof.
  unfold signature_accepted, check_signature.
  destruct MINIFLUX_WEBHOOK_SECRET as [[|c key]|].
  - split; [intros _; right; left; reflexivity | intros _ t; reflexivity].
  - split.
    + intros H. right. right. exists (String c key). split; [reflexivity|].
      cbn [of_env truthy] in H.
      apply (verify_with_key (get_data req) _ (String c key) []);
        [discriminate|]. now rewrite H.
    + intros [H | [H | (key' & [= <-] & H)]]; try discriminate.
      intros t. cbn [of_env truthy].
      now apply verify_with_key.
  - split; [intros _; left; reflexivity | intros _ t; reflexivity].
Qed.

(** X2. A request passes the signature check exactly when no secret is
    configured (unset or empty) or its signature header is the hexadecimal
    HMAC of its body under the secret. *)
Theorem signature_accepted_iff (req : request) :
  signature_accepted req <->
  (MINIFLUX_WEBHOOK_SECRET = None \/ MINIFLUX_WEBHOOK_SECRET = Some ""
   \/ exists key,
        MINIFLUX_WEBHOOK_SECRET = Some key
        /\ header_get (req_headers req) "X-Miniflux-Signature" ""
           = hmac_hexdigest (encode_utf8 key) (get_data req)).
Proof. apply check_signature_passes. Qed.

(** X3. With a secret, a request whose signature header is ASCII and is not
    the expected one (a missing header counts as the empty signature) is
    answered with 403 and [{"error": "Invalid signature"}]; the body is not
    parsed, nothing is called, one warning is logged. *)
Theorem wrong_signature_forbidden (req : request) (key : string) (t : trace) :
  MINIFLUX_WEBHOOK_SECRET = Some key -> key <> "" ->
  is_ascii (header_get (req_headers req) "X-Miniflux-Signature" "") = true ->
  header_get (req_headers req) "X-Miniflux-Signature" ""
  <> hmac_hexdigest (encode_utf8 key) (get_data req) ->
  webhook_handler req t
  = (Ok (jsonify [("error", VStr "Invalid signature")], 403),
     t ++ [Log WARNING "Invalid webhook signature from {request.remote_addr}"
             [remote_addr req]]).
Proof.
  intros Hs Hk Ha Hne.
  destruct (verify_with_key (get_data req)
              (header_get (req_headers req) "X-Miniflux-Signature" "") key t Hk)
    as (_ & Hno & _).
  unfold webhook_handler, check_signature. rewrite Hs.
  destruct key as [|c key]; [contradiction|]. cbn [of_env truthy].
  run. rewrite (Hno Ha Hne). reflexivity.
Qed.


Lemma test_request_passes (event_type : string) (payload_bytes : bytes)
    (parsed : result value) (addr : value) :
  signature_accepted
    (test_request event_type (sender_secret MINIFLUX_WEBHOOK_SECRET) payload_bytes
       parsed addr).
Proof.
  apply check_signature_passes.
  destruct MINIFLUX_WEBHOOK_SECRET as [[|c key]|];
    [right; left; reflexivity | | left; reflexivity].
  right. right. exists (String c key). split; reflexivity.
Qed.

(** X5. The request that [test_webhook.py] builds passes the signature
    check of a server that reads the same secret from its environment,
    whether the secret is set, empty or unset, for every payload and event
    type. *)
Theorem test_request_accepted (event_type : string) (payload_bytes : bytes)
    (parsed : result value) (addr : value) :
  signature_accepted
    (test_request event_type (sender_secret MINIFLUX_WEBHOOK_SECRET) payload_bytes
       parsed addr).
Proof. apply test_request_passes. Qed.

(** ** Runs that only append *)

Section Adds.

Variable P : trace -> Prop.
Hypothesis HP : frame P.

Lemma adds_ret {A} (a : A) : run_adds P (ret a).
Proof. intros t. exists (Ok a), []. rewrite app_nil_r. split; [reflexivity | apply HP]. Qed.

Lemma adds_raise {A} (e : exn) : run_adds P (@raise A e).
Proof. intros t. exists (Raise e), []. rewrite app_nil_r. split; [reflexivity | apply HP]. Qed.

Lemma adds_lift {A} (r : result A) : run_adds P (lift r).
Proof. intros t. exists r, []. rewrite app_nil_r. split; [reflexivity | apply HP]. Qed.

Lemma adds_log (lv : level) (msg : string) (args : list value) :
  run_adds P (log lv msg args).
Proof. intros t. exists (Ok tt), [Log lv msg args]. split; [reflexivity | apply HP]. Qed.

Lemma adds_bind {A B} (m : M A) (k : A -> M B) :
  run_adds P m -> (forall a, run_adds P (k a)) -> run_adds P (bind m k).
Proof.
  intros Hm Hk t. destruct (Hm t) as (r & new1 & Hrun & H1).
  unfold bind. rewrite Hrun. destruct r as [a|e].
  - destruct (Hk a (t ++ new1)) as (r2 & new2 & Hrun2 & H2).
    exists r2, (new1 ++ new2). rewrite Hrun2, app_assoc.
    split; [reflexivity | now apply HP].
  - exists (Raise e), new1. split; [reflexivity | exact H1].
Qed.

Lemma adds_try {A} (m : M A) (h : exn -> M A) :
  run_adds P m -> (forall e, run_adds P (h e)) -> run_adds P (try_except m h).
Proof.
  intros Hm Hh t. destruct (Hm t) as (r & new1 & Hrun & H1).
  unfold try_except. rewrite Hrun. destruct r as [a|e].
  - exists (Ok a), new1. split; [reflexivity | exact H1].
  - destruct (Hh e (t ++ new1)) as (r2 & new2 & Hrun2 & H2).
    exists r2, (new1 ++ new2). rewrite Hrun2, app_assoc.
    split; [reflexivity | now apply HP].
Qed.

Lemma adds_py_get (v : value) (k : string) (dflt : value) : run_adds P (py_get v k dflt).
Proof. destruct v; first [apply adds_ret | apply adds_raise]. Qed.

Lemma adds_py_len (v : value) : run_adds P (py_len v).
Proof. destruct v; first [apply adds_ret | apply adds_raise]. Qed.

Lemma adds_py_iter (v : value) : run_adds P (py_iter v).
Proof. destruct v; first [apply adds_ret | apply adds_raise]. Qed.

Lemma adds_compare_digest (a b : string) : run_adds P (compare_digest a b).
Proof. unfold compare_digest. destruct (_ && _); [apply adds_ret | apply adds_raise]. Qed.

Lemma adds_verify (payload : bytes) (signature : string) (secret : option string) :
  run_adds P (verify_webhook_signature payload signature secret).
Proof.
  destruct secret as [[|c key]|]; cbn [verify_webhook_signature].
  - apply adds_bind; [apply adds_log | intros _; apply adds_ret].
  - apply adds_compare_digest.
  - apply adds_bind; [apply adds_log | intros _; apply adds_ret].
Qed.

Lemma adds_check_signature (payload : bytes) (signature : string) :
  run_adds P (check_signature payload signature).
Proof. unfold check_signature. destruct (truthy _); [apply adds_verify | apply adds_ret]. Qed.

End Adds.

(** Take a run apart along its binds, tries and branches. *)
Ltac adds HP :=
  repeat first
    [ apply (adds_ret _ HP) | apply (adds_raise _ HP) | apply (adds_lift _ HP)
    | apply (adds_log _ HP) | apply (adds_py_get _ HP) | apply (adds_py_len _ HP)
    | apply (adds_py_iter _ HP) | apply (adds_check_signature _ HP)
    | match goal with
      | |- run_adds _ (bind _ _) => apply (adds_bind _ HP); [|intros ?]
      | |- run_adds _ (try_except _ _) => apply (adds_try _ HP); [|intros ?]
      | |- run_adds _ (if negb (truthy ?u) then _ else _) =>
          destruct (truthy u) eqn:?; cbn [negb]
      | |- run_adds _ (if ?b then _ else _) => destruct b
      | |- run_adds _ (match ?x with _ => _ end) => destruct x
      end ].

Lemma frame_quiet : frame (fun new => calls new = []).
Proof.
  constructor; [reflexivity | reflexivity|].
  intros a b Ha Hb. now rewrite calls_app, Ha, Hb.
Qed.

Lemma frame_good (self : InstapaperClient) :
  frame (fun new => Forall (good_call self) (calls new)).
Proof.
  constructor; [constructor | constructor|].
  intros a b Ha Hb. rewrite calls_app. apply Forall_app. now split.
Qed.

Lemma frame_service : frame service_calls_ok.
Proof.
  unfold service_calls_ok. destruct configured_client; [apply frame_good | apply frame_quiet].
Qed.

Lemma form_data_good (self : InstapaperClient) (url title selection : value) :
  truthy url = true ->
  good_call self (INSTAPAPER_ADD_URL, form_data self url title selection, 30).
Proof.
  intros Hu. repeat split. exists url. split; [reflexivity | exact Hu].
Qed.

Lemma add_article_adds (self : InstapaperClient) (url title selection : value) :
  truthy url = true ->
  run_adds (fun new => Forall (good_call self) (calls new))
    (add_article self url title selection).
Proof.
  intros Hu t.
  destruct (add_article_run self url title selection t) as (report & Hrun & Hq & _).
  destruct (quiet_report report Hq) as [Hcalls _].
  eexists _, _. rewrite Hrun. split; [norm_trace; reflexivity|].
  change (calls (?a :: ?b :: ?c)) with (calls [a; b] ++ calls c).
  rewrite Hcalls. cbn [calls flat_map app].
  constructor; [now apply form_data_good | constructor].
Qed.

(** ** What the service calls *)

Lemma new_entry_step_adds (self : InstapaperClient) (entry : value) (count : Z) :
  run_adds (fun new => Forall (good_call self) (calls new))
    (new_entry_step self entry count).
Proof.
  unfold new_entry_step, new_entry_try.
  adds (frame_good self); apply add_article_adds; assumption.
Qed.

Lemma for_entries_adds (self : InstapaperClient) (entries : list value) (count : Z) :
  run_adds (fun new => Forall (good_call self) (calls new))
    (for_entries self entries count).
Proof.
  revert count; induction entries as [|entry rest IH]; intros count; cbn [for_entries].
  - apply (adds_ret _ (frame_good self)).
  - apply (adds_bind _ (frame_good self)); [apply new_entry_step_adds | intros c; apply IH].
Qed.

Lemma process_new_entries_adds (entries : value) :
  run_adds service_calls_ok (process_new_entries entries).
Proof.
  unfold service_calls_ok, configured_client, process_new_entries.
  destruct INSTAPAPER_USERNAME as [[|c user]|].
  - adds frame_quiet.
  - adds (frame_good (Client (String c user) INSTAPAPER_PASSWORD)).
    apply for_entries_adds.
  - adds frame_quiet.
Qed.

Lemma process_saved_entry_adds (entry : value) :
  run_adds service_calls_ok (process_saved_entry entry).
Proof.
  unfold service_calls_ok, configured_client, process_saved_entry.
  destruct INSTAPAPER_USERNAME as [[|c user]|].
  - adds frame_quiet.
  - adds (frame_good (Client (String c user) INSTAPAPER_PASSWORD));
      apply add_article_adds; assumption.
  - adds frame_quiet.
Qed.

(** X6. Whatever the request, the handler only appends to the trace, and
    the calls it adds are all to the Instapaper add endpoint, with a timeout
    of 30, the configured user name and password and a URL that is not
    empty; when no user name is configured it adds no call at all. *)
Theorem handler_calls_are_good (req : request) (t : trace) :
  exists r new,
    webhook_handler req t = (r, t ++ new)
    /\ match configured_client with
       | Some self => Forall (good_call self) (calls new)
       | None => calls new = []
       end.
Proof.
  revert t. change (run_adds service_calls_ok (webhook_handler req)).
  unfold webhook_handler.
  adds frame_service;
    first [apply process_new_entries_adds | apply process_saved_entry_adds].
Qed.

(** ** Counting *)

Lemma saved_count_bounds (new : trace) :
  0 <= saved_count new <= Z.of_nat (List.length (calls new)).
Proof.
  induction new as [|e new IH]; [cbn; lia|].
  destruct e as [lv msg args|url data timeout r].
  - rewrite saved_count_log. exact IH.
  - rewrite saved_count_post. cbn [calls flat_map app List.length].
    fold (calls new). destruct (is_saved (outcome_of r)); lia.
Qed.

Lemma new_entry_step_non_dict (self : InstapaperClient) (entry : value) (count : Z)
    (t : trace) :
  is_dict entry = false ->
  new_entry_step self entry count t = (Raise AttributeError, t).
Proof. destruct entry; [reflexivity..|discriminate]. Qed.

Lemma new_entry_step_count (self : InstapaperClient) (entry : value) (count n : Z)
    (t t' : trace) :
  new_entry_step self entry count t = (Ok n, t') -> count <= n <= count + 1.
Proof.
  destruct (is_dict entry) eqn:Hd.
  - destruct entry; try discriminate.
    destruct (new_entry_step_dict self d count t) as (new & Hrun & Hcalls).
    rewrite Hrun. intros [= <- _].
    pose proof (saved_count_bounds new) as Hb. rewrite Hcalls in Hb.
    pose proof (entry_calls_at_most_one (fun x => x) self (VDict d)) as H1.
    unfold entry_calls in Hb. lia.
  - rewrite new_entry_step_non_dict by assumption. discriminate.
Qed.

Lemma for_entries_count (self : InstapaperClient) (entries : list value) :
  forall (count n : Z) (t t' : trace),
  for_entries self entries count t = (Ok n, t') ->
  count <= n <= count + Z.of_nat (List.length entries).
Proof.
  induction entries as [|entry rest IH]; intros count n t t'; cbn [for_entries].
  - unfold ret. intros [= <- _]. cbn. lia.
  - unfold bind. destruct (new_entry_step self entry count t) as [[c|e] t1] eqn:Hstep;
      [|discriminate].
    intros Hrest. apply IH in Hrest. apply new_entry_step_count in Hstep.
    cbn [List.length]. lia.
Qed.

Lemma processed_count_sound (entries : list value) (n : Z) (t t' : trace) :
  process_new_entries (VList entries) t = (Ok n, t') ->
  0 <= n <= Z.of_nat (List.length entries).
Proof.
  unfold process_new_entries.
  destruct INSTAPAPER_USERNAME as [[|c user]|]; run.
  - intros [= <- _]. lia.
  - intros H. apply for_entries_count in H. lia.
  - intros [= <- _]. lia.
Qed.

(** X7. The count that [process_new_entries] returns for a list of entries
    lies between 0 and the number of entries. *)
Theorem processed_count_bounds (entries : list value) (n : Z) (t t' : trace) :
  process_new_entries (VList entries) t = (Ok n, t') ->
  0 <= n <= Z.of_nat (List.length entries).
Proof. apply processed_count_sound. Qed.

(** ** A batch with an entry that is not an object *)

Lemma for_entries_app (self : InstapaperClient) (l1 l2 : list value) (count : Z)
    (t : trace) :
  for_entries self (l1 ++ l2) count t
  = bind (for_entries self l1 count) (for_entries self l2) t.
Proof.
  revert count t; induction l1 as [|entry l1 IH]; intros count t; [reflexivity|].
  cbn [app for_entries]. unfold bind.
  destruct (new_entry_step self entry count t) as [[c|e] t1]; [|reflexivity].
  rewrite IH. reflexivity.
Qed.

Lemma objects_before_split (pre post : list value) (v : value) :
  forallb is_dict pre = true -> is_dict v = false ->
  objects_before (pre ++ v :: post) = pre.
Proof.
  intros Hpre Hv. induction pre as [|e pre IH]; cbn [app objects_before].
  - now rewrite Hv.
  - cbn [forallb] in Hpre. apply andb_true_iff in Hpre as [He Hpre].
    now rewrite He, IH.
Qed.

(** X8. With a user name configured, a batch whose entries are objects up
    to an entry that is not one ends with [AttributeError] at that entry:
    the calls of the entries before it have been made, in order, and the
    entries after it are never looked at. *)
Theorem batch_stops_at_non_object (user : string) (pre post : list value) (v : value)
    (t : trace) :
  INSTAPAPER_USERNAME = Some user -> user <> "" ->
  forallb is_dict pre = true -> is_dict v = false ->
  exists new,
    process_new_entries (VList (pre ++ v :: post)) t = (Raise AttributeError, t ++ new)
    /\ calls new = flat_map (entry_calls (Client user INSTAPAPER_PASSWORD)) pre
    /\ objects_before (pre ++ v :: post) = pre.
Proof.
  intros Hcfg Hne Hpre Hv.
  destruct (process_new_entries_configured user (pre ++ v :: post) t Hcfg Hne)
    as [_ Hrun].
  destruct (for_entries_dicts (Client user INSTAPAPER_PASSWORD) pre Hpre 0 t)
    as (new & Hloop & Hcalls).
  exists new. rewrite Hrun, for_entries_app.
  rewrite (bind_ok _ _ _ _ _ Hloop). cbn [for_entries].
  rewrite (bind_raise _ _ _ _ _ (new_entry_step_non_dict _ v _ _ Hv)).
  split; [reflexivity|]. split; [exact Hcalls | now apply objects_before_split].
Qed.

(** ** The branches of the handler *)

(** X9. When the body does not parse ([get_json] raises), a request that
    passed the signature check is answered with 400 and
    [{"error": "Invalid JSON"}]; the event type is not read and nothing is
    called. *)
Theorem invalid_json_rejected (req : request) (e : exn) (t : trace) :
  signature_accepted req ->
  get_json req = Raise e ->
  webhook_handler req t
  = (Ok (jsonify [("error", VStr "Invalid JSON")], 400),
     t ++ [Log ERROR "Invalid JSON payload: {e}" [exn_str e]]).
Proof.
  intros Hsig Hjson. unfold webhook_handler. run. rewrite Hsig, Hjson. reflexivity.
Qed.

(** X10. An event type other than [new_entries] and [save_entry] (a missing
    header included) is ignored: with a payload that is not empty the answer
    is a 200 with [status] "ignored" and the event type as received; the
    payload is not read and nothing is called. *)
Theorem unknown_event_ignored (req : request) (data : value) (t : trace) :
  let event_type := header_get (req_headers req) "X-Miniflux-Event-Type" "" in
  signature_accepted req ->
  get_json req = Ok data -> truthy data = true ->
  event_type <> "new_entries" -> event_type <> "save_entry" ->
  webhook_handler req t
  = (Ok (jsonify [("status", VStr "ignored"); ("event_type", VStr event_type);
                  ("message", VStr "Event type not supported")], 200),
     t ++ [Log INFO "Received webhook: {event_type} from {request.remote_addr}"
             [VStr event_type; remote_addr req];
           Log WARNING "Unknown event type: {event_type}" [VStr event_type]]).
Proof.
  intros event_type Hsig Hjson Hdata Hn Hs.
  unfold webhook_handler. run. rewrite Hsig, Hjson. run. cbn [negb].
  rewrite Hdata. cbn [negb]. run. fold event_type.
  apply String.eqb_neq in Hn, Hs. rewrite Hn, Hs. run.
  norm_trace. reflexivity.
Qed.


(** X12. A [new_entries] payload without [entries] and without [feed] is a
    batch of no entries from "Unknown feed": the answer is a 200 with 0
    received and 0 processed, and nothing is called. *)
Theorem new_entries_defaults (req : request) (d : list (string * value)) (t : trace) :
  signature_accepted req ->
  header_get (req_headers req) "X-Miniflux-Event-Type" "" = "new_entries" ->
  get_json req = Ok (VDict d) -> d <> [] ->
  dict_get d "entries" = None -> dict_get d "feed" = None ->
  exists new,
    webhook_handler req t
    = (Ok (jsonify [("status", VStr "success"); ("event_type", VStr "new_entries");
                    ("entries_received", VInt 0); ("entries_processed", VInt 0);
                    ("feed", VStr "Unknown feed")], 200), t ++ new)
    /\ calls new = [].
Proof.
  intros Hsig Hev Hjson Hd Hentries Hfeed.
  unfold webhook_handler. run. rewrite Hsig, Hjson, Hev. run. cbn [negb].
  assert (Ht : truthy (VDict d) = true) by (destruct d; [contradiction | reflexivity]).
  rewrite Ht. cbn [negb]. run.
  change ("new_entries" =? "new_entries")%string with true. run.
  unfold get_or. rewrite Hentries, Hfeed. run.
  unfold process_new_entries.
  destruct INSTAPAPER_USERNAME as [[|c user]|]; run; cbn [for_entries]; run;
    norm_trace; eexists; split; reflexivity.
Qed.

(** X13. A [save_entry] payload without [entry] stands for an entry without
    fields: nothing is called and the answer is a 200 with [status] "error",
    [entry_processed] false and the title "Unknown title". *)
Theorem save_entry_default (req : request) (d : list (string * value)) (t : trace) :
  signature_accepted req ->
  header_get (req_headers req) "X-Miniflux-Event-Type" "" = "save_entry" ->
  get_json req = Ok (VDict d) -> d <> [] ->
  dict_get d "entry" = None ->
  exists new,
    webhook_handler req t
    = (Ok (jsonify [("status", VStr "error"); ("event_type", VStr "save_entry");
                    ("entry_processed", VBool false);
                    ("entry_title", VStr "Unknown title")], 200), t ++ new)
    /\ calls new = [].
Proof.
  intros Hsig Hev Hjson Hd Hentry.
  unfold webhook_handler. run. rewrite Hsig, Hjson, Hev. run. cbn [negb].
  assert (Ht : truthy (VDict d) = true) by (destruct d; [contradiction | reflexivity]).
  rewrite Ht. cbn [negb]. run.
  change ("save_entry" =? "new_entries")%string with false.
  change ("save_entry" =? "save_entry")%string with true. run.
  assert (Hget : get_or d "entry" (VDict []) = VDict [])
    by (unfold get_or; now rewrite Hentry).
  rewrite Hget. run.
  unfold process_saved_entry.
  destruct INSTAPAPER_USERNAME as [[|c user]|]; run; cbn [negb truthy get_or dict_get];
    run; norm_trace; eexists; split; reflexivity.
Qed.

(** ** A saved entry, from the request to the answer *)

Lemma process_saved_entry_reply (user : string) (d : list (string * value))
    (description : value) (t : trace) :
  INSTAPAPER_USERNAME = Some user -> user <> "" ->
  truthy (get_or d "url" VNone) = true ->
  description_of (get_or d "content" (VStr "")) = Ok description ->
  let url := get_or d "url" VNone in
  let title := get_or d "title" (VStr "") in
  let data := form_data (Client user INSTAPAPER_PASSWORD) url title
                (with_saved_tag description) in
  let t1 := t ++ [Log INFO "Adding article to Instapaper: {title or url}" [py_or title url]] in
  let r := upstream t1 INSTAPAPER_ADD_URL data 30 in
  exists tail,
    process_saved_entry (VDict d) t
    = (Ok (is_saved (outcome_of r)), t1 ++ Post INSTAPAPER_ADD_URL data 30 r :: tail)
    /\ calls tail = [].
Proof.
  intros Hcfg Hne Hurl Hdesc url title data t1 r.
  destruct user as [|c user]; [contradiction|].
  unfold process_saved_entry. rewrite Hcfg. run.
  rewrite Hurl, Hdesc. cbn [negb]. run.
  destruct (add_article_run (Client (String c user) INSTAPAPER_PASSWORD)
              url title (with_saved_tag description) t) as (report & Hrun & Hq & _).
  destruct (quiet_report report Hq) as [Hcalls _].
  fold url title. rewrite Hrun. run. fold data t1 r.
  destruct (is_saved (outcome_of r)); run; norm_trace;
    eexists; (split; [reflexivity|]); rewrite calls_app, Hcalls; reflexivity.
Qed.

(** X14. A [save_entry] request for an entry with a URL and a content that
    can be stripped, with a user name configured: the handler makes exactly
    one call, and its answer is a 200 that follows the reply to that call,
    [status] "success" and [entry_processed] true when the reply is a 201,
    "error" and false otherwise. *)
Theorem save_entry_follows_reply (req : request) (d e : list (string * value))
    (user : string) (description : value) (t : trace) :
  signature_accepted req ->
  header_get (req_headers req) "X-Miniflux-Event-Type" "" = "save_entry" ->
  get_json req = Ok (VDict d) ->
  dict_get d "entry" = Some (VDict e) ->
  INSTAPAPER_USERNAME = Some user -> user <> "" ->
  truthy (get_or e "url" VNone) = true ->
  description_of (get_or e "content" (VStr "")) = Ok description ->
  let url := get_or e "url" VNone in
  let title := get_or e "title" (VStr "") in
  let data := form_data (Client user INSTAPAPER_PASSWORD) url title
                (with_saved_tag description) in
  let t1 :=
    t ++ [Log INFO "Received webhook: {event_type} from {request.remote_addr}"
            [VStr "save_entry"; remote_addr req];
          Log INFO "Processing saved entry: {entry.get('title', 'Unknown title')}"
            [get_or e "title" (VStr "Unknown title")];
          Log INFO "Adding article to Instapaper: {title or url}" [py_or title url]] in
  let r := upstream t1 INSTAPAPER_ADD_URL data 30 in
  let saved := is_saved (outcome_of r) in
  exists tail,
    webhook_handler req t
    = (Ok (jsonify [("status", VStr (if saved then "success" else "error"));
                    ("event_type", VStr "save_entry");
                    ("entry_processed", VBool saved);
                    ("entry_title", get_or e "title" (VStr "Unknown title"))], 200),
       t1 ++ Post INSTAPAPER_ADD_URL data 30 r :: tail)
    /\ calls tail = []
    /\ (saved = true <-> exists resp, r = Ok resp /\ status_code resp = 201).
Proof.
  intros Hsig Hev Hjson Hentry Hcfg Hne Hurl Hdesc url title data t1 r saved.
  unfold webhook_handler. run. rewrite Hsig, Hjson, Hev. run. cbn [negb].
  assert (Hd : truthy (VDict d) = true) by (destruct d; [discriminate | reflexivity]).
  rewrite Hd. cbn [negb]. run.
  change ("save_entry" =? "new_entries")%string with false.
  change ("save_entry" =? "save_entry")%string with true.
  assert (Hget : get_or d "entry" (VDict []) = VDict e)
    by (unfold get_or; now rewrite Hentry).
  run. rewrite Hget. run.
  match goal with
  | |- context [process_saved_entry (VDict e) ?t0] =>
      destruct (process_saved_entry_reply user e description t0 Hcfg Hne Hurl Hdesc)
        as (tail & Hrun & Hcalls)
  end.
  rewrite Hrun. run.
  repeat rewrite <- app_assoc in *. cbn [app] in *.
  fold url title data t1 r saved.
  exists tail. split; [f_equal; unfold t1; now rewrite <- app_assoc|].
  split; [exact Hcalls|].
  unfold saved. destruct r as [resp|ex]; cbn [outcome_of is_saved].
  - rewrite is_saved_status, Z.eqb_eq. split.
    + intros H. exists resp. now split.
    + now intros (resp' & [= <-] & H).
  - split; [discriminate | intros (resp & H & _); discriminate].
Qed.

(** ** A batch, from the request to the answer *)

Lemma batch_of_objects (entries : list value) (t : trace) :
  forallb is_dict entries = true -> batch_isolated entries t.
Proof.
  intros Hd. unfold batch_isolated, configured_client, process_new_entries.
  destruct INSTAPAPER_USERNAME as [[|c user]|].
  - exists 0, [Log ERROR "Instapaper username not configured" []].
    repeat split.
  - destruct (for_entries_dicts (Client (String c user) INSTAPAPER_PASSWORD)
                entries Hd 0 t) as (new & Hloop & Hcalls).
    exists (saved_count new), new. run.
    split; [exact Hloop|]. split; [exact Hcalls | reflexivity].
  - exists 0, [Log ERROR "Instapaper username not configured" []].
    repeat split.
Qed.

Lemma new_entries_run (req : request) (d f : list (string * value))
    (entries : list value) (t : trace) :
  signature_accepted req ->
  header_get (req_headers req) "X-Miniflux-Event-Type" "" = "new_entries" ->
  get_json req = Ok (VDict d) ->
  dict_get d "entries" = Some (VList entries) ->
  forallb is_dict entries = true ->
  get_or d "feed" (VDict []) = VDict f ->
  exists n new,
    webhook_handler req t
    = (Ok (jsonify [("status", VStr "success"); ("event_type", VStr "new_entries");
                    ("entries_received", VInt (Z.of_nat (List.length entries)));
                    ("entries_processed", VInt n);
                    ("feed", get_or f "title" (VStr "Unknown feed"))], 200), t ++ new)
    /\ calls new = match configured_client with
                   | Some self => flat_map (entry_calls self) entries
                   | None => []
                   end
    /\ n = saved_count new
    /\ 0 <= n <= Z.of_nat (List.length entries).
Proof.
  intros Hsig Hev Hjson Hentries Hobj Hfeed.
  unfold webhook_handler. run. rewrite Hsig, Hjson, Hev. run. cbn [negb].
  assert (Hd : truthy (VDict d) = true) by (destruct d; [discriminate | reflexivity]).
  rewrite Hd. cbn [negb]. run.
  change ("new_entries" =? "new_entries")%string with true.
  assert (Hget : get_or d "entries" (VList []) = VList entries)
    by (unfold get_or; now rewrite Hentries).
  run. rewrite Hget, Hfeed. run.
  match goal with
  | |- context [process_new_entries (VList entries) ?t0] =>
      destruct (batch_of_objects entries t0 Hobj) as (n & new & Hrun & Hcalls & Hn);
      pose proof (processed_count_sound entries n t0 _ Hrun) as Hbound
  end.
  rewrite Hrun. run. norm_trace.
  eexists n, _. split; [reflexivity|].
  split; [|split; [|exact Hbound]].
  - change (calls (?a :: ?b :: ?c)) with (calls [a; b] ++ calls c). exact Hcalls.
  - rewrite !saved_count_log. exact Hn.
Qed.

(** X15. A [new_entries] request whose [entries] is a list of objects and
    whose [feed] is an object or absent: the answer is a 200 with [status]
    "success", the number of entries as [entries_received], the number of
    calls answered with a 201 as [entries_processed] (between 0 and the
    number received), and the title of the feed or "Unknown feed"; the calls
    are those of the entries, in order. *)
Theorem new_entries_answer (req : request) (d f : list (string * value))
    (entries : list value) (t : trace) :
  signature_accepted req ->
  header_get (req_headers req) "X-Miniflux-Event-Type" "" = "new_entries" ->
  get_json req = Ok (VDict d) ->
  dict_get d "entries" = Some (VList entries) ->
  forallb is_dict entries = true ->
  get_or d "feed" (VDict []) = VDict f ->
  exists n new,
    webhook_handler req t
    = (Ok (jsonify [("status", VStr "success"); ("event_type", VStr "new_entries");
                    ("entries_received", VInt (Z.of_nat (List.length entries)));
                    ("entries_processed", VInt n);
                    ("feed", get_or f "title" (VStr "Unknown feed"))], 200), t ++ new)
    /\ calls new = match configured_client with
                   | Some self => flat_map (entry_calls self) entries
                   | None => []
                   end
    /\ n = saved_count new
    /\ 0 <= n <= Z.of_nat (List.length entries).
Proof. apply new_entries_run. Qed.

(** ** The fields of a call *)

(** X16. [add_article] makes one call, to the add endpoint with a timeout
    of 30. Its form always has [username], [password] and [url]; it has
    [title] only for a title that is not empty, [selection] only for a
    selection that is not empty, and no other field. *)
Theorem add_article_fields (self : InstapaperClient) (url title selection : value)
    (t : trace) :
  let data := form_data self url title selection in
  (exists b new,
     add_article self url title selection t = (Ok b, t ++ new)
     /\ calls new = [(INSTAPAPER_ADD_URL, data, 30)])
  /\ dict_get data "username" = Some (VStr (username self))
  /\ dict_get data "password" = Some (VStr (password self))
  /\ dict_get data "url" = Some url
  /\ dict_get data "title" = (if truthy title then Some title else None)
  /\ dict_get data "selection" = (if truthy selection then Some selection else None)
  /\ (forall k, dict_get data k <> None ->
      In k ["username"; "password"; "url"; "title"; "selection"]).
Proof.
  intros data. split.
  { destruct (add_article_run self url title selection t) as (report & Hrun & Hq & _).
    destruct (quiet_report report Hq) as [Hcalls _].
    eexists _, _. rewrite Hrun. split; [norm_trace; reflexivity|].
    change (calls (?a :: ?b :: ?c)) with (calls [a; b] ++ calls c).
    rewrite Hcalls. reflexivity. }
  split; [reflexivity|]. split; [reflexivity|]. split; [reflexivity|].
  split; [unfold data, form_data; destruct (truthy title), (truthy selection); reflexivity|].
  split; [apply form_data_selection|].
  intros k Hk. unfold data, form_data in Hk.
  assert (Hkeys : forall d : list (string * value),
            dict_get d k <> None -> In k (map fst d)).
  { induction d as [|[k' v] d IH]; cbn [dict_get map fst]; [congruence|].
    destruct (String.eqb_spec k' k) as [->|_]; [now left | right; auto]. }
  apply Hkeys in Hk. rewrite !map_app in Hk. cbn [map fst app] in Hk.
  destruct (truthy title), (truthy selection); cbn [map fst app In] in Hk |- *;
    repeat (destruct Hk as [<- | Hk]; [auto 10|]); contradiction.
Qed.

(** ** The size of the description *)

Lemma length_strip_tags (s : string) :
  (String.length (strip_tags s) <= String.length s)%nat
  /\ (String.length (after_gt s) <= String.length s)%nat.
Proof.
  induction s as [|c r [IHs IHa]]; [split; reflexivity|].
  split.
  - cbn [strip_tags]. destruct (is_lt c && opens_tag r); cbn [String.length]; lia.
  - cbn [after_gt]. destruct (is_gt c); cbn [String.length]; lia.
Qed.

(** X17. A description is never longer than 203 characters, and the text it
    is cut from never longer than the content; with the tag of a saved
    entry in front, the note has between 21 and 225 characters. *)
Theorem description_bounds (content description : value) :
  description_of content = Ok description ->
  (forall note, description = VStr note ->
     (String.length note <= 203)%nat
     /\ exists s, content = VStr s
                  /\ (String.length (strip_tags s) <= String.length s)%nat)
  /\ exists tagged,
       with_saved_tag description = VStr tagged
       /\ (21 <= String.length tagged <= 225)%nat.
Proof.
  assert (Htag : forall note : string,
            (String.length note <= 203)%nat ->
            exists tagged,
              with_saved_tag (VStr note) = VStr tagged
              /\ (21 <= String.length tagged <= 225)%nat).
  { intros [|c r] Hn.
    - eexists; split; [reflexivity|]. cbn. lia.
    - eexists; split; [reflexivity|].
      cbn [SAVED_TAG String.append String.length] in *. lia. }
  unfold description_of. destruct (truthy content).
  - destruct content as [| | | |s| |]; cbn [re_sub_tags]; try discriminate.
    pose proof (proj1 (length_strip_tags s)) as Hs.
    destruct (len (strip_tags s) >? 200) eqn:E; intros Heq.
    + apply len_gt_200 in E. pose proof (length_truncated _ E) as Hl.
      assert (Hd : description = VStr (take 200 (strip_tags s) ++ "...")) by congruence.
      rewrite Hd. split.
      * intros note Hn.
        assert (Hnote : note = (take 200 (strip_tags s) ++ "...")%string) by congruence.
        rewrite Hnote, Hl. split; [lia | now exists s].
      * apply Htag. lia.
    + assert (Hl : (String.length (strip_tags s) <= 200)%nat).
      { destruct (Nat.le_gt_cases (String.length (strip_tags s)) 200) as [H|H];
          [exact H|]. apply len_gt_200 in H. congruence. }
      assert (Hd : description = VStr (strip_tags s)) by congruence.
      rewrite Hd. split.
      * intros note Hn. assert (Hnote : note = strip_tags s) by congruence.
        rewrite Hnote. split; [lia | now exists s].
      * apply Htag. lia.
  - intros Heq. assert (Hd : description = VNone) by congruence. rewrite Hd.
    split; [discriminate|].
    eexists; split; [reflexivity|]. cbn. lia.
Qed.

Lemma strip_tags_no_gt (s : string) : has_gt s = false -> strip_tags s = s.
Proof.
  induction s as [|c r IH]; [reflexivity|].
  cbn [has_gt strip_tags]. intros H. apply orb_false_iff in H as [Hc Hr].
  assert (Ho : opens_tag r = false).
  { destruct r as [|c0 r0]; [reflexivity|].
    cbn [opens_tag]. cbn [has_gt] in Hr. apply orb_false_iff in Hr as [_ Hr0].
    now rewrite Hr0, andb_false_r. }
  now rewrite Ho, andb_false_r, IH.
Qed.

Lemma opens_tag_stripped (r : string) :
  opens_tag r = false -> opens_tag (strip_tags r) = false.
Proof.
  destruct r as [|c0 r0]; [reflexivity|].
  cbn [opens_tag]. intros H. apply andb_false_iff in H as [H | H].
  - apply negb_false_iff in H. apply is_gt_true in H. subst c0.
    reflexivity.
  - destruct (is_gt c0) eqn:Hc.
    + apply is_gt_true in Hc. subst c0. reflexivity.
    + assert (Hr : has_gt (String c0 r0) = false) by (cbn [has_gt]; now rewrite Hc, H).
      rewrite (strip_tags_no_gt _ Hr). cbn [opens_tag]. now rewrite H, andb_false_r.
Qed.

Lemma strip_tags_twice_upto (n : nat) (s : string) :
  (String.length s <= n)%nat -> strip_tags (strip_tags s) = strip_tags s.
Proof.
  revert s; induction n as [|n IH]; intros s Hn.
  - destruct s; [reflexivity | simpl in Hn; lia].
  - destruct s as [|c r]; [reflexivity|].
    destruct (is_lt c && opens_tag r) eqn:E.
    + apply andb_true_iff in E as [Hc Ho].
      apply is_lt_true in Hc; subst c.
      destruct r as [|c0 r0]; [discriminate|].
      cbn [opens_tag] in Ho. apply andb_true_iff in Ho as [Hc0 Hgt].
      destruct (has_gt_split _ Hgt) as (inner & rest & -> & Hin).
      assert (Hm : tag_match ("<" ++ String c0 inner ++ ">")).
      { constructor. simpl. rewrite Hin. now destruct (is_gt c0). }
      replace (String "<" (String c0 (inner ++ String ">" rest)))
        with (("<" ++ String c0 inner ++ ">") ++ rest)%string
        by (simpl; now rewrite app_assoc_string).
      rewrite (strip_tags_match _ rest Hm).
      apply IH. simpl in Hn. rewrite string_length_app in Hn. simpl in Hn. lia.
    + cbn [strip_tags]. rewrite E. cbn [strip_tags].
      assert (E' : is_lt c && opens_tag (strip_tags r) = false).
      { apply andb_false_iff in E as [E | E]; [now rewrite E|].
        rewrite (opens_tag_stripped r E). apply andb_false_r. }
      rewrite E'. f_equal. apply IH. simpl in Hn. lia.
Qed.

(** X18. Stripping is idempotent: in the text that [re.sub] leaves, the
    pattern matches nowhere, so a description holds no tag that a second
    pass would remove. *)
Theorem strip_tags_idempotent (s : string) :
  strip_tags (strip_tags s) = strip_tags s
  /\ removes (strip_tags s) (strip_tags s).
Proof.
  assert (H : strip_tags (strip_tags s) = strip_tags s)
    by (apply (strip_tags_twice_upto (String.length s)); lia).
  split; [exact H|].
  pose proof (strip_tags_removes (strip_tags s)) as Hr. now rewrite H in Hr.
Qed.

(** ** Without a user name, and at start *)

(** X19. Without a user name (unset or empty) [process_new_entries] returns
    0 and [process_saved_entry] returns false, whatever they are given,
    lists and objects or not: each logs one error, reads nothing of its
    argument and calls nothing. *)
Theorem nothing_without_user_name (entries entry : value) (t : trace) :
  INSTAPAPER_USERNAME = None \/ INSTAPAPER_USERNAME = Some "" ->
  process_new_entries entries t
  = (Ok 0, t ++ [Log ERROR "Instapaper username not configured" []])
  /\ process_saved_entry entry t
     = (Ok false, t ++ [Log ERROR "Instapaper username not configured" []]).
Proof.
  intros H.
  assert (Hc : configured_client = None)
    by (unfold configured_client; now destruct H as [-> | ->]).
  split; [now apply process_new_entries_unconfigured
         | now apply process_saved_entry_unconfigured].
Qed.

(** X20. The start of the program: without a user name it logs one error
    and exits with status 1; with one it goes on to start the server, and
    it logs the warning that verification is disabled exactly when no
    secret is configured. A server that has started therefore has the
    client that the two processing functions build. *)
Theorem startup_needs_user_name (t : trace) :
  (configured_client = None ->
   main_startup t
   = (Ok (Some 1),
      t ++ [Log ERROR "INSTAPAPER_USERNAME environment variable is required" []]))
  /\ (forall self, configured_client = Some self ->
      exists new,
        main_startup t = (Ok None, t ++ new)
        /\ calls new = []
        /\ (In (Log WARNING
                  "MINIFLUX_WEBHOOK_SECRET not set - webhook signature verification disabled"
                  []) new
            <-> truthy (of_env MINIFLUX_WEBHOOK_SECRET) = false))
  /\ (fst (main_startup t) = Ok None <-> configured_client <> None).
Proof.
  unfold configured_client, main_startup.
  destruct INSTAPAPER_USERNAME as [[|c user]|]; cbn [of_env truthy negb].
  - split; [reflexivity|]. split; [discriminate|].
    split; [discriminate | intros H; now contradiction H].
  - split; [discriminate|]. split.
    + intros self _.
      destruct (truthy (of_env MINIFLUX_WEBHOOK_SECRET)); cbn [negb]; run; norm_trace;
        eexists; (split; [reflexivity|]); (split; [reflexivity|]).
      * split; [|discriminate].
        cbn [In]. intros [H | [H | [H | []]]]; discriminate.
      * split; [reflexivity|]. intros _. left. reflexivity.
    + destruct (truthy (of_env MINIFLUX_WEBHOOK_SECRET)); cbn [negb]; run;
        (split; [discriminate | reflexivity]).
  - split; [reflexivity|]. split; [discriminate|].
    split; [discriminate | intros H; now contradiction H].
Qed.

(** ** Entries that are not a list *)

(** X22. With a user name configured, [process_new_entries] iterates over
    whatever [entries] is: a string gives its characters and an object its
    keys, none of which is an entry, so a non-empty one raises
    [AttributeError] at its first item while an empty one counts 0; [None],
    a number or a boolean cannot be iterated and raise [TypeError]. Nothing
    is logged or called in any of these cases. *)
Theorem entries_not_a_list (user : string) (entries : value) (t : trace) :
  INSTAPAPER_USERNAME = Some user -> user <> "" ->
  match entries with
  | VList _ => True
  | VStr EmptyString | VDict [] => process_new_entries entries t = (Ok 0, t)
  | VStr _ | VDict _ => process_new_entries entries t = (Raise AttributeError, t)
  | _ => process_new_entries entries t = (Raise TypeError, t)
  end.
Proof.
  intros Hcfg Hne. destruct user as [|c user]; [contradiction|].
  unfold process_new_entries. rewrite Hcfg.
  destruct entries as [| | | |[|c0 s]|l|[|[k v] d]]; try reflexivity; exact I.
Qed.

(** ** The test script against the service *)

Lemma test_headers_event (event_type webhook_secret : string) (payload_bytes : bytes) :
  header_get (test_headers event_type webhook_secret payload_bytes)
    "X-Miniflux-Event-Type" "" = event_type.
Proof. reflexivity. Qed.

(** X21. [test_webhook.py] counts an answer of status 200 as success. For
    the two event types it accepts, the request it builds from its own
    payload is answered with 200 by a service that has the same secret,
    whatever the bookmarking service replies and whether or not a user name
    is configured: the script reports success even when nothing was saved. *)
Theorem test_script_sees_200 (now : nat -> string) (event_type : string)
    (payload_bytes : bytes) (addr : value) (t : trace) :
  event_type = "new_entries" \/ event_type = "save_entry" ->
  test_verdict
    (fst (webhook_handler
            (test_request event_type (sender_secret MINIFLUX_WEBHOOK_SECRET)
               payload_bytes (Ok (create_test_payload now event_type)) addr) t))
  = true.
Proof.
  intros Hev.
  pose proof (test_request_passes event_type payload_bytes
                (Ok (create_test_payload now event_type)) addr) as Hsig.
  destruct Hev as [-> | ->].
  - edestruct (new_entries_run _ _ _ _ t Hsig (test_headers_event _ _ _) eq_refl
                 eq_refl eq_refl eq_refl) as (n & new & Hrun & _).
    rewrite Hrun. reflexivity.
  - unfold webhook_handler. run. rewrite Hsig.
    cbn [get_json test_request req_headers]. rewrite test_headers_event.
    unfold create_test_payload.
    change ("save_entry" =? "new_entries")%string with false.
    change ("save_entry" =? "save_entry")%string with true.
    cbn [truthy negb get_or dict_get String.eqb Ascii.eqb Bool.eqb]. run.
    match goal with
    | |- context [process_saved_entry (VDict ?e) ?t0] =>
        destruct (process_saved_entry_object e t0) as (b & new & Hrun & _)
    end.
    rewrite Hrun. reflexivity.
Qed.

End Service.

(** * Checks on concrete inputs *)

(** ** Digests and tags *)

Example round_constants :
  List.length Sha256.K = 64%nat
  /\ hd 0 Sha256.K = 0x428a2f98 /\ last Sha256.K 0 = 0xc67178f2
  /\ hd 0 Sha256.H0 = 0x6a09e667 /\ last Sha256.H0 0 = 0x5be0cd19.
Proof. repeat split. Qed.

Example sha256_abc :
  hex (Sha256.digest (bytes_of_string "abc"))
  = "ba7816bf8f01cfea414140de5dae2223b00361a396177a9cb410ff61f20015ad".
Proof. vm_compute. reflexivity. Qed.

Example sha256_two_blocks :
  hex (Sha256.digest (repeat x61 56))
  = "b35439a4ac6f0948b6d6f9e3c6af0f5f590ce20f1bde7090ef7970686ec6738a".
Proof. vm_compute. reflexivity. Qed.

Example hmac_fox :
  hmac_hexdigest (encode_utf8 "key")
    (bytes_of_string "The quick brown fox jumps over the lazy dog")
  = "f7bc83f430538424b13298e6aa6fb143ef4d59a14946175997479dbc2d1a3cd8".
Proof. vm_compute. reflexivity. Qed.

Example hmac_long_key :
  hmac_hexdigest (repeat x6b 70) (bytes_of_string "hello")
  = "73473f937d4c181ed6aa87ce97d6db7dc732e19dd43e60c8ab7ee3aed2d9f4b0".
Proof. vm_compute. reflexivity. Qed.

Example hmac_latin1_key :
  hmac_hexdigest (encode_utf8 (String (ascii_of_N 233) EmptyString)) []
  = "388db6266e9a6b783b1afc0b4ea2674b982342775900528ee22e4387e4e03d5b".
Proof. vm_compute. reflexivity. Qed.

Example strip_p : strip_tags "<p>hi</p>" = "hi".
Proof. reflexivity. Qed.

Example strip_empty_brackets : strip_tags "a<>b<c" = "a<>b<c".
Proof. reflexivity. Qed.

Example strip_nested_lt : strip_tags "x<<a>y" = "xy".
Proof. reflexivity. Qed.

Example strip_after_empty_brackets : strip_tags "<>a>b<i>c" = "<>a>bc".
Proof. reflexivity. Qed.

(** ** The scenarios of the specification *)

Example scenario_A :
  fst (webhook_handler (upstream_status 201) None (Some "user") ""
         (json_request "new_entries" (Ok (batch_body [entry_A]))) [])
  = Ok (jsonify [("status", VStr "success"); ("event_type", VStr "new_entries");
                 ("entries_received", VInt 1); ("entries_processed", VInt 1);
                 ("feed", VStr "F")], 200).
Proof. reflexivity. Qed.

Example scenario_A_call :
  calls (snd (webhook_handler (upstream_status 201) None (Some "user") ""
                (json_request "new_entries" (Ok (batch_body [entry_A]))) []))
  = [(INSTAPAPER_ADD_URL,
      [("username", VStr "user"); ("password", VStr ""); ("url", VStr "https://x.test");
       ("title", VStr "T"); ("selection", VStr "hi")], 30)].
Proof. reflexivity. Qed.

Example scenario_B :
  fst (webhook_handler (upstream_status 201) None (Some "user") ""
         (json_request "new_entries" (Ok (batch_body [entry_no_url]))) [])
  = Ok (jsonify [("status", VStr "success"); ("event_type", VStr "new_entries");
                 ("entries_received", VInt 1); ("entries_processed", VInt 0);
                 ("feed", VStr "F")], 200).
Proof. reflexivity. Qed.

Example scenario_C :
  fst (webhook_handler (upstream_status 201) (Some "s3cret") (Some "user") ""
         (signed_request "new_entries" "00ff" (bytes_of_string "{}")
            (Ok (batch_body [entry_A]))) [])
  = Ok (jsonify [("error", VStr "Invalid signature")], 403).
Proof. vm_compute. reflexivity. Qed.

Example scenario_signed :
  fst (webhook_handler (upstream_status 201) (Some "key") (Some "user") ""
         (signed_request "new_entries"
            "f7bc83f430538424b13298e6aa6fb143ef4d59a14946175997479dbc2d1a3cd8"
            (bytes_of_string "The quick brown fox jumps over the lazy dog")
            (Ok (batch_body []))) [])
  = Ok (jsonify [("status", VStr "success"); ("event_type", VStr "new_entries");
                 ("entries_received", VInt 0); ("entries_processed", VInt 0);
                 ("feed", VStr "F")], 200).
Proof. vm_compute. reflexivity. Qed.

Example scenario_D :
  fst (webhook_handler (upstream_status 403) None (Some "user") ""
         (json_request "save_entry" (Ok (saved_body entry_D))) [])
  = Ok (jsonify [("status", VStr "error"); ("event_type", VStr "save_entry");
                 ("entry_processed", VBool false); ("entry_title", VStr "S")], 200).
Proof. reflexivity. Qed.

Example scenario_D_call :
  calls (snd (webhook_handler (upstream_status 403) None (Some "user") ""
                (json_request "save_entry" (Ok (saved_body entry_D))) []))
  = [(INSTAPAPER_ADD_URL,
      [("username", VStr "user"); ("password", VStr ""); ("url", VStr "https://y.test");
       ("title", VStr "S"); ("selection", VStr "[Saved from Miniflux]")], 30)].
Proof. reflexivity. Qed.

Example non_ascii_signature :
  fst (webhook_handler (upstream_status 201) (Some "key") (Some "user") ""
         (signed_request "new_entries" (String (ascii_of_N 233) EmptyString) []
            (Ok (batch_body []))) [])
  = Ok (jsonify [("error", VStr "Internal server error")], 500).
Proof. vm_compute. reflexivity. Qed.

Example service_down :
  add_article upstream_down (Client "user" "") (VStr "https://x.test") (VStr "T") VNone []
  = (Ok false,
     [Log INFO "Adding article to Instapaper: {title or url}" [VStr "T"];
      Post INSTAPAPER_ADD_URL
        [("username", VStr "user"); ("password", VStr ""); ("url", VStr "https://x.test");
         ("title", VStr "T")] 30 (Raise (RequestException "Connection refused"));
      Log ERROR "Error connecting to Instapaper: {e}" [VStr "Connection refused"]]).
Proof. reflexivity. Qed.

(** An entry that is not an object: the [except] clause asks it for its
    [id] and raises in turn, so the loop ends there and the entry after it
    is never looked at; the handler answers 500. *)
Example batch_with_non_object :
  process_new_entries (upstream_status 201) (Some "user") "" (VList [VInt 5; entry_A]) []
  = (Raise AttributeError, []).
Proof. reflexivity. Qed.

Example batch_with_non_object_500 :
  webhook_handler (upstream_status 201) None (Some "user") ""
    (json_request "new_entries" (Ok (batch_body [VInt 5; entry_A]))) []
  = (Ok (jsonify [("error", VStr "Internal server error")], 500),
     [Log INFO "Received webhook: {event_type} from {request.remote_addr}"
        [VStr "new_entries"; VStr "127.0.0.1"];
      Log INFO "Processing {len(entries)} new entries from feed: {feed_title}"
        [VInt 2; VStr "F"];
      Log ERROR "Error processing webhook: {e}" [VStr "AttributeError"]]).
Proof. reflexivity. Qed.

Example batch_after_failure :
  fst (process_new_entries (upstream_status 201) (Some "user") ""
         (VList [VDict [("url", VStr "https://a.test"); ("content", VInt 5)]; entry_A]) [])
  = Ok 1.
Proof. reflexivity. Qed.

(** ** The theorems at concrete inputs *)

Lemma verify_accepts_generated_witness :
  "key" <> ""
  /\ verify_webhook_signature
       (bytes_of_string "The quick brown fox jumps over the lazy dog")
       (generate_signature
          (bytes_of_string "The quick brown fox jumps over the lazy dog") "key")
       (Some "key") []
     = (Ok true, []).
Proof.
  split; [discriminate|].
  apply (verify_accepts_generated
           (bytes_of_string "The quick brown fox jumps over the lazy dog") "key" []).
  discriminate.
Defined.

Lemma description_of_content_witness :
  "<p>hi</p>" <> "" /\ description_of (VStr "<p>hi</p>") = Ok (VStr "hi").
Proof.
  split; [discriminate|].
  apply (description_of_content "<p>hi</p>"); [discriminate|].
  simpl. lia.
Defined.

Lemma entry_without_url_skipped_witness :
  (dict_get fields_no_url "url" = None \/ dict_get fields_no_url "url" = Some VNone
   \/ dict_get fields_no_url "url" = Some (VStr ""))
  /\ new_entry_step (upstream_status 201) (Client "user" "") entry_no_url 0 []
     = (Ok 0, [] ++ [Log WARNING "Entry missing URL: {entry.get('id')}" [VInt 1]]).
Proof.
  split; [left; reflexivity|].
  apply (entry_without_url_skipped (upstream_status 201) (Some "user") ""
           fields_no_url (Client "user" "") 0 []).
  left; reflexivity.
Defined.

Lemma process_new_entries_isolated_witness :
  forallb is_dict [entry_A; entry_no_url; entry_D] = true
  /\ batch_isolated (upstream_status 201) (Some "user") ""
       [entry_A; entry_no_url; entry_D] [].
Proof.
  split; [reflexivity|].
  apply (process_new_entries_isolated (upstream_status 201) (Some "user") "").
  reflexivity.
Defined.

Lemma saved_tag_on_save_path_only_witness :
  exists b new,
    process_saved_entry (upstream_status 201) (Some "user") "" entry_A [] = (Ok b, [] ++ new)
    /\ calls new
       = [(INSTAPAPER_ADD_URL,
           form_data (Client "user" "") (VStr "https://x.test") (VStr "T")
             (VStr "[Saved from Miniflux] hi"), 30)].
Proof.
  destruct (saved_tag_on_save_path_only (upstream_status 201) (Some "user") ""
              "user" fields_A (VStr "hi") [] eq_refl ltac:(discriminate) eq_refl eq_refl)
    as [(b & new & note & Hrun & Hcalls & _ & _ & Hnote & _) _].
  exists b, new. split; [exact Hrun|].
  rewrite Hcalls, (Hnote "hi" eq_refl ltac:(discriminate)). reflexivity.
Defined.

Lemma save_entry_failure_is_200_witness :
  exists t',
    webhook_handler (upstream_status 403) None (Some "user") ""
      (json_request "save_entry" (Ok (saved_body entry_D))) []
    = (Ok (jsonify [("status", VStr "error"); ("event_type", VStr "save_entry");
                    ("entry_processed", VBool false); ("entry_title", VStr "S")], 200),
       t').
Proof.
  apply (save_entry_failure_is_200 (upstream_status 403) None (Some "user") ""
           (json_request "save_entry" (Ok (saved_body entry_D)))
           [("entry", entry_D)] fields_D []).
  - intros t. reflexivity.
  - reflexivity.
  - reflexivity.
  - reflexivity.
  - reflexivity.
  - intros t1 url data timeout. reflexivity.
Defined.

Lemma falsy_payload_rejected_witness :
  truthy (VDict []) = false
  /\ webhook_handler (upstream_status 201) None (Some "user") ""
       (json_request "new_entries" (Ok (VDict []))) []
     = (Ok (jsonify [("error", VStr "Empty payload")], 400),
        [] ++ [Log ERROR "Empty payload received" []]).
Proof.
  split; [reflexivity|].
  apply (falsy_payload_rejected (upstream_status 201) None (Some "user") ""
           (json_request "new_entries" (Ok (VDict []))) (VDict []) []).
  - intros t. reflexivity.
  - reflexivity.
  - reflexivity.
Defined.

(** ** Where a statement does not hold *)

(** A batch with an entry that is not an object is not worked through: the
    run ends in an exception at that entry. *)
Lemma batch_not_isolated_for_non_object :
  ~ batch_isolated (upstream_status 201) (Some "user") "" [VInt 5; entry_A] [].
Proof.
  intros (n & new & Hrun & _).
  rewrite batch_with_non_object in Hrun. discriminate.
Qed.

(** The body of the answer to an empty payload has no [status]. *)
Lemma error_body_without_status :
  ~ every_body_has_status_and_event_type (upstream_status 201) None (Some "user") "".
Proof.
  intros H.
  destruct (H (json_request "new_entries" (Ok (VDict []))) []
              (VDict [("error", VStr "Empty payload")]) 400
              [Log ERROR "Empty payload received" []] eq_refl) as [Hstatus _].
  discriminate.
Qed.

(** ** The further properties at concrete inputs *)

Lemma verify_only_expected_witness :
  "key" <> ""
  /\ verify_webhook_signature [] "00ff" (Some "key") [] = (Ok false, []).
Proof.
  split; [discriminate|].
  apply (verify_only_expected [] "00ff" "key" []);
    [discriminate | reflexivity | vm_compute; discriminate].
Defined.

Lemma wrong_signature_forbidden_witness :
  webhook_handler (upstream_status 201) (Some "s3cret") (Some "user") ""
    (signed_request "new_entries" "00ff" (bytes_of_string "{}")
       (Ok (batch_body [entry_A]))) []
  = (Ok (jsonify [("error", VStr "Invalid signature")], 403),
     [] ++ [Log WARNING "Invalid webhook signature from {request.remote_addr}"
              [VStr "127.0.0.1"]]).
Proof.
  apply (wrong_signature_forbidden (upstream_status 201) (Some "s3cret") (Some "user") ""
           (signed_request "new_entries" "00ff" (bytes_of_string "{}")
              (Ok (batch_body [entry_A]))) "s3cret" []);
    [reflexivity | discriminate | reflexivity | vm_compute; discriminate].
Defined.


Lemma processed_count_bounds_witness :
  fst (process_new_entries (upstream_status 201) (Some "user") ""
         (VList [entry_A; entry_no_url]) []) = Ok 1
  /\ 0 <= 1 <= Z.of_nat (List.length [entry_A; entry_no_url]).
Proof.
  split; [reflexivity|].
  apply (processed_count_bounds (upstream_status 201) (Some "user") ""
           [entry_A; entry_no_url] 1 []
           (snd (process_new_entries (upstream_status 201) (Some "user") ""
                   (VList [entry_A; entry_no_url]) []))).
  reflexivity.
Defined.

Lemma batch_stops_at_non_object_witness :
  exists new,
    process_new_entries (upstream_status 201) (Some "user") ""
      (VList ([entry_A] ++ VInt 5 :: [entry_D])) []
    = (Raise AttributeError, [] ++ new)
    /\ calls new = flat_map (entry_calls (Client "user" "")) [entry_A]
    /\ objects_before ([entry_A] ++ VInt 5 :: [entry_D]) = [entry_A].
Proof.
  apply (batch_stops_at_non_object (upstream_status 201) (Some "user") "" "user"
           [entry_A] [entry_D] (VInt 5) []);
    [reflexivity | discriminate | reflexivity | reflexivity].
Defined.

Lemma invalid_json_rejected_witness :
  webhook_handler (upstream_status 201) None (Some "user") ""
    (json_request "new_entries" (Raise (OtherException "400 Bad Request"))) []
  = (Ok (jsonify [("error", VStr "Invalid JSON")], 400),
     [] ++ [Log ERROR "Invalid JSON payload: {e}" [VStr "400 Bad Request"]]).
Proof.
  apply (invalid_json_rejected (upstream_status 201) None (Some "user") ""
           (json_request "new_entries" (Raise (OtherException "400 Bad Request")))
           (OtherException "400 Bad Request") []);
    [intros t; reflexivity | reflexivity].
Defined.

Lemma unknown_event_ignored_witness :
  fst (webhook_handler (upstream_status 201) None (Some "user") ""
         (json_request "entry_updated" (Ok (batch_body [entry_A]))) [])
  = Ok (jsonify [("status", VStr "ignored"); ("event_type", VStr "entry_updated");
                 ("message", VStr "Event type not supported")], 200).
Proof.
  rewrite (unknown_event_ignored (upstream_status 201) None (Some "user") ""
             (json_request "entry_updated" (Ok (batch_body [entry_A])))
             (batch_body [entry_A]) []);
    [reflexivity | intros t; reflexivity | reflexivity | reflexivity
    | vm_compute; discriminate | vm_compute; discriminate].
Defined.


Lemma new_entries_defaults_witness :
  exists new,
    webhook_handler (upstream_status 201) None (Some "user") ""
      (json_request "new_entries" (Ok (VDict [("event_type", VStr "new_entries")]))) []
    = (Ok (jsonify [("status", VStr "success"); ("event_type", VStr "new_entries");
                    ("entries_received", VInt 0); ("entries_processed", VInt 0);
                    ("feed", VStr "Unknown feed")], 200), [] ++ new)
    /\ calls new = [].
Proof.
  apply (new_entries_defaults (upstream_status 201) None (Some "user") ""
           (json_request "new_entries" (Ok (VDict [("event_type", VStr "new_entries")])))
           [("event_type", VStr "new_entries")] []);
    [intros t; reflexivity | reflexivity | reflexivity | discriminate
    | reflexivity | reflexivity].
Defined.

Lemma save_entry_default_witness :
  exists new,
    webhook_handler (upstream_status 201) None (Some "user") ""
      (json_request "save_entry" (Ok (VDict [("event_type", VStr "save_entry")]))) []
    = (Ok (jsonify [("status", VStr "error"); ("event_type", VStr "save_entry");
                    ("entry_processed", VBool false);
                    ("entry_title", VStr "Unknown title")], 200), [] ++ new)
    /\ calls new = [].
Proof.
  apply (save_entry_default (upstream_status 201) None (Some "user") ""
           (json_request "save_entry" (Ok (VDict [("event_type", VStr "save_entry")])))
           [("event_type", VStr "save_entry")] []);
    [intros t; reflexivity | reflexivity | reflexivity | discriminate | reflexivity].
Defined.

Lemma save_entry_follows_reply_witness :
  fst (webhook_handler (upstream_status 201) None (Some "user") ""
         (json_request "save_entry" (Ok (saved_body entry_D))) [])
  = Ok (jsonify [("status", VStr "success"); ("event_type", VStr "save_entry");
                 ("entry_processed", VBool true); ("entry_title", VStr "S")], 200).
Proof.
  destruct (save_entry_follows_reply (upstream_status 201) None (Some "user") ""
              (json_request "save_entry" (Ok (saved_body entry_D)))
              [("entry", entry_D)] fields_D "user" VNone []
              (fun t => eq_refl) eq_refl eq_refl eq_refl eq_refl
              ltac:(discriminate) eq_refl eq_refl) as (tail & Hrun & _).
  rewrite Hrun. reflexivity.
Defined.

Lemma new_entries_answer_witness :
  exists n,
    fst (webhook_handler (upstream_status 201) None (Some "user") ""
           (json_request "new_entries" (Ok (batch_body [entry_A; entry_no_url]))) [])
    = Ok (jsonify [("status", VStr "success"); ("event_type", VStr "new_entries");
                   ("entries_received", VInt 2); ("entries_processed", VInt n);
                   ("feed", VStr "F")], 200)
    /\ 0 <= n <= 2.
Proof.
  destruct (new_entries_answer (upstream_status 201) None (Some "user") ""
              (json_request "new_entries" (Ok (batch_body [entry_A; entry_no_url])))
              [("entries", VList [entry_A; entry_no_url]);
               ("feed", VDict [("title", VStr "F")])]
              [("title", VStr "F")] [entry_A; entry_no_url] []
              (fun t => eq_refl) eq_refl eq_refl eq_refl eq_refl eq_refl)
    as (n & new & Hrun & _ & _ & Hn).
  exists n. rewrite Hrun. split; [reflexivity | exact Hn].
Defined.

Lemma description_bounds_witness :
  description_of (VStr "<p>hi</p>") = Ok (VStr "hi")
  /\ (String.length "hi" <= 203)%nat.
Proof.
  split; [reflexivity|].
  apply (proj1 (description_bounds (VStr "<p>hi</p>") (VStr "hi") eq_refl) "hi" eq_refl).
Defined.

Lemma nothing_without_user_name_witness :
  process_new_entries (upstream_status 201) None "" (VInt 5) []
  = (Ok 0, [] ++ [Log ERROR "Instapaper username not configured" []])
  /\ process_saved_entry (upstream_status 201) None "" (VInt 5) []
     = (Ok false, [] ++ [Log ERROR "Instapaper username not configured" []]).
Proof.
  apply (nothing_without_user_name (upstream_status 201) None "" (VInt 5) (VInt 5) []).
  left; reflexivity.
Defined.

Lemma entries_not_a_list_witness :
  process_new_entries (upstream_status 201) (Some "user") "" (VStr "ab") []
  = (Raise AttributeError, []).
Proof.
  exact (entries_not_a_list (upstream_status 201) (Some "user") "" "user" (VStr "ab") []
           eq_refl ltac:(discriminate)).
Defined.

Lemma test_script_sees_200_witness :
  test_verdict
    (fst (webhook_handler upstream_down (Some "key") None ""
            (test_request "save_entry" (sender_secret (Some "key")) []
               (Ok (create_test_payload (fun _ => "2025-07-26T12:00:00") "save_entry"))
               (VStr "127.0.0.1")) []))
  = true.
Proof.
  apply (test_script_sees_200 upstream_down (Some "key") None ""
           (fun _ => "2025-07-26T12:00:00") "save_entry" [] (VStr "127.0.0.1") []).
  right; reflexivity.
Defined.
